(** * phosphonet scraper: a shallow embedding of [phosphonet.py]

    The script scrapes phosphonet.ca for the phosphosites of a protein and,
    for each site, the table of the fifty most probable kinases.  The
    embedding follows the script function by function:

    - Python exceptions are the [Raise] side of [result];
    - code that talks to the outside world (HTTP requests, [print], [sleep],
      [to_csv]) lives in the writer/error monad [IO], whose trace records
      every effect in program order;
    - the parts of numpy and pandas the script calls are modelled in the
      modules [np] and [pd];
    - the remote site and Python's [int] parser are section variables. *)

From Stdlib Require Import String Ascii List ZArith Lia Bool.
Import ListNotations.

Local Open Scope string_scope.
Local Open Scope list_scope.

(* ------------------------------------------------------------------------ *)
(** ** Exceptions and results *)

(** The Python exceptions the script can raise.  [NotModelled] is not a
    Python exception: it marks the one pandas behaviour left outside the
    model ([pd.concat] of frames whose columns differ); the lemma
    [main_loop_modelled] shows the script never reaches it. *)
Inductive exn : Type :=
| ValueError
| KeyError
| IndexError
| TypeError
| AttributeError
| OverflowError
| UnboundLocalError
| ZeroDivisionError
| NotModelled.

Inductive result (A : Type) : Type :=
| Ok (a : A)
| Raise (e : exn).

Arguments Ok {A} a.
Arguments Raise {A} e.

Definition rbind {A B} (m : result A) (f : A -> result B) : result B :=
  match m with
  | Ok a => f a
  | Raise e => Raise e
  end.

Declare Scope result_scope.
Delimit Scope result_scope with result.
Notation "x <- m ;; k" := (rbind m (fun x => k))
  (at level 100, m at next level, right associativity) : result_scope.

(* ------------------------------------------------------------------------ *)
(** ** Python built-ins used by the script *)

Module py.

(** [s[1:]] : never raises, the empty string has an empty tail. *)
Definition str_tail (s : string) : string :=
  match s with
  | EmptyString => EmptyString
  | String _ r => r
  end.

(** [s[0]] : raises [IndexError] on the empty string. *)
Definition str_head (s : string) : result string :=
  match s with
  | EmptyString => Raise IndexError
  | String c _ => Ok (String c EmptyString)
  end.

(** [s.replace(old, new)] for one-character [old] and [new]. *)
Fixpoint str_replace (old new : ascii) (s : string) : string :=
  match s with
  | EmptyString => EmptyString
  | String c r =>
      String (if Ascii.eqb c old then new else c) (str_replace old new r)
  end.

(** [tpl.format( *args )] for templates whose replacement fields are all the
    automatic field [{}], which is the only form the script's templates
    use.  A field with no argument left raises [IndexError]; surplus
    arguments are ignored. *)
Fixpoint format (tpl : string) (args : list string) : result string :=
  match tpl with
  | EmptyString => Ok EmptyString
  | String c rest =>
      match rest with
      | String d rest' =>
          if Ascii.eqb c "{"%char && Ascii.eqb d "}"%char then
            match args with
            | a :: args' =>
                (r <- format rest' args' ;; Ok (a ++ r)%string)%result
            | [] => Raise IndexError
            end
          else (r <- format rest args ;; Ok (String c r))%result
      | EmptyString => (r <- format rest args ;; Ok (String c r))%result
      end
  end.

(** [l.index(x)] : position of the first occurrence, [ValueError] if there
    is none. *)
Fixpoint index (l : list string) (x : string) : result nat :=
  match l with
  | [] => Raise ValueError
  | y :: l' =>
      if String.eqb y x then Ok 0
      else (i <- index l' x ;; Ok (S i))%result
  end.

(** [l[start:stop]] for non-negative bounds. *)
Definition slice {A} (l : list A) (start stop : nat) : list A :=
  firstn (stop - start) (skipn start l).

(** [a % b] on integers: the sign follows the divisor, as [Z.modulo] does;
    a zero divisor raises. *)
Definition mod_ (a b : Z) : result Z :=
  if (b =? 0)%Z then Raise ZeroDivisionError else Ok (a mod b)%Z.

End py.

(* ------------------------------------------------------------------------ *)
(** ** numpy: arrays of strings and their row-major reshape *)

Module np.

(** A two-dimensional array: its shape and its buffer in C order. *)
Record ndarray : Type := mk_ndarray
  { nrows : nat; ncols : nat; flat : list string }.

(** [np.array(l).reshape((r, c), order='C')] : the buffer is kept as it
    is; a size other than [r * c] raises [ValueError]. *)
Definition reshape (l : list string) (r c : nat) : result ndarray :=
  if Nat.eqb (length l) (r * c) then Ok (mk_ndarray r c l)
  else Raise ValueError.

(** [a[i, j]] in C order. *)
Definition item (a : ndarray) (i j : nat) : option string :=
  if ((i <? nrows a) && (j <? ncols a))%nat
  then nth_error (flat a) (i * ncols a + j)
  else None.

(** [a[:, j]] : column [j], top to bottom. *)
Definition col (a : ndarray) (j : nat) : list string :=
  map (fun i => nth (i * ncols a + j) (flat a) EmptyString)
      (seq 0 (nrows a)).

End np.

(* ------------------------------------------------------------------------ *)
(** ** pandas: data frames with typed columns *)

Module pd.

(** Column labels are integers (frames built from an array) or names. *)
Inductive label : Type :=
| LInt (n : nat)
| LStr (s : string).

Definition label_eqb (a b : label) : bool :=
  match a, b with
  | LInt n, LInt m => Nat.eqb n m
  | LStr s, LStr t => String.eqb s t
  | _, _ => false
  end.

(** A column holds Python strings (dtype [object]) or integers. *)
Inductive column : Type :=
| ColObj (l : list string)
| ColInt (l : list Z).

Definition col_len (c : column) : nat :=
  match c with
  | ColObj l => length l
  | ColInt l => length l
  end.

(** A frame: the row labels and the columns in their order.  The frames
    this script builds have pairwise distinct column labels ([insert]
    refuses a duplicate), and on those [getitem] and [setitem] below are
    what pandas does. *)
Record DataFrame : Type := mk_frame
  { index : list Z; columns : list (label * column) }.

Definition labels (df : DataFrame) : list label := map fst (columns df).

Definition range (n : nat) : list Z := map Z.of_nat (seq 0 n).

(** [pd.DataFrame()], and [pd.DataFrame([])] alike: no row, no column. *)
Definition empty_frame : DataFrame := mk_frame [] [].

(** [pd.DataFrame(a)] for a two-dimensional array of strings. *)
Definition of_ndarray (a : np.ndarray) : DataFrame :=
  mk_frame (range (np.nrows a))
           (map (fun j => (LInt j, ColObj (np.col a j)))
                (seq 0 (np.ncols a))).

Definition has_label (df : DataFrame) (l : label) : bool :=
  existsb (fun p => label_eqb (fst p) l) (columns df).

(** [df.drop(ls, axis=1)] : every label must be present. *)
Definition drop (ls : list label) (df : DataFrame) : result DataFrame :=
  if forallb (has_label df) ls
  then Ok (mk_frame (index df)
             (filter (fun p => negb (existsb (label_eqb (fst p)) ls))
                     (columns df)))
  else Raise KeyError.

(** [df.reset_index()] : the old row labels become the first column, named
    [index], or [level_0] when [index] is taken. *)
Definition reset_index (df : DataFrame) : result DataFrame :=
  let name :=
    if has_label df (LStr "index") then LStr "level_0" else LStr "index" in
  if has_label df name then Raise ValueError
  else Ok (mk_frame (range (length (index df)))
                    ((name, ColInt (index df)) :: columns df)).

(** [df.reset_index(drop=True)] : a new frame, the old row labels are
    dropped. *)
Definition reset_index_drop (df : DataFrame) : DataFrame :=
  mk_frame (range (length (index df))) (columns df).

(** [df.columns = names] *)
Definition set_columns (names : list label) (df : DataFrame)
  : result DataFrame :=
  if Nat.eqb (length names) (length (columns df))
  then Ok (mk_frame (index df)
             (map (fun p => (fst p, snd (snd p)))
                  (combine names (columns df))))
  else Raise ValueError.

(** [df[l]] *)
Fixpoint lookup (cs : list (label * column)) (l : label) : result column :=
  match cs with
  | [] => Raise KeyError
  | (m, c) :: cs' => if label_eqb m l then Ok c else lookup cs' l
  end.

Definition getitem (df : DataFrame) (l : label) : result column :=
  lookup (columns df) l.

(** [df[l] = c] where [c] was computed from a column of [df] itself, so
    that it carries the row labels of [df] and is stored position by
    position: the column is replaced where it stands, or appended. *)
Fixpoint update (cs : list (label * column)) (l : label) (c : column)
  : list (label * column) :=
  match cs with
  | [] => [(l, c)]
  | (m, d) :: cs' =>
      if label_eqb m l then (m, c) :: cs' else (m, d) :: update cs' l c
  end.

Definition setitem (df : DataFrame) (l : label) (c : column) : DataFrame :=
  mk_frame (index df) (update (columns df) l c).

(** [df.insert(loc, l, s)] with a scalar string [s], repeated on every
    row. *)
Definition insert (loc : nat) (l : label) (s : string) (df : DataFrame)
  : result DataFrame :=
  if has_label df l then Raise ValueError
  else if (length (columns df) <? loc)%nat then Raise IndexError
  else Ok (mk_frame (index df)
             (firstn loc (columns df)
              ++ (l, ColObj (repeat s (length (index df))))
              :: skipn loc (columns df))).

(** [c + k] for an integer [k].  (Row numbers are far below the 64-bit
    bound, so no wrap-around is written out.) *)
Definition add_scalar (c : column) (k : Z) : result column :=
  match c with
  | ColInt l => Ok (ColInt (map (fun z => z + k)%Z l))
  | ColObj [] => Ok (ColObj [])
  | ColObj _ => Raise TypeError
  end.

Definition int32_min : Z := - 2 ^ 31.
Definition int32_max : Z := 2 ^ 31 - 1.

(** Cast between integer widths: two's complement wrap-around. *)
Definition wrap32 (z : Z) : Z := ((z + 2 ^ 31) mod 2 ^ 32 - 2 ^ 31)%Z.

(** One string cast to [int32]: [py_int] is Python's [int] on a string. *)
Definition int32_of_str (py_int : string -> option Z) (s : string)
  : result Z :=
  match py_int s with
  | None => Raise ValueError
  | Some z =>
      if ((int32_min <=? z) && (z <=? int32_max))%Z then Ok z
      else Raise OverflowError
  end.

Fixpoint cast_all (py_int : string -> option Z) (l : list string)
  : result (list Z) :=
  match l with
  | [] => Ok []
  | s :: l' =>
      (z <- int32_of_str py_int s ;;
       r <- cast_all py_int l' ;;
       Ok (z :: r))%result
  end.

(** [c.astype(dtype='int32')] *)
Definition astype_int32 (py_int : string -> option Z) (c : column)
  : result column :=
  match c with
  | ColObj l => (r <- cast_all py_int l ;; Ok (ColInt r))%result
  | ColInt l => Ok (ColInt (map wrap32 l))
  end.

(** [c.str.replace(old, new)] : the [.str] accessor exists on string
    columns only. *)
Definition str_replace (old new : ascii) (c : column) : result column :=
  match c with
  | ColObj l => Ok (ColObj (map (py.str_replace old new) l))
  | ColInt _ => Raise AttributeError
  end.

(** [df.empty] : some axis has length zero. *)
Definition empty (df : DataFrame) : bool :=
  (Nat.eqb (length (index df)) 0) || (Nat.eqb (length (columns df)) 0).

Definition append_col (c d : column) : option column :=
  match c, d with
  | ColObj l, ColObj m => Some (ColObj (l ++ m))
  | ColInt l, ColInt m => Some (ColInt (l ++ m))
  | _, _ => None
  end.

Fixpoint concat_cols (cs ds : list (label * column))
  : option (list (label * column)) :=
  match cs, ds with
  | [], [] => Some []
  | (l, c) :: cs', (m, d) :: ds' =>
      if label_eqb l m then
        match append_col c d, concat_cols cs' ds' with
        | Some e, Some r => Some ((l, e) :: r)
        | _, _ => None
        end
      else None
  | _, _ => None
  end.

(** [pd.concat([a, b])] for two frames with the same labels in the same
    order and the same column types: rows of [b] below the rows of [a],
    row labels kept.  [None] otherwise (pandas would align the columns and
    fill the gaps, which needs cells this model has no value for). *)
Definition concat (a b : DataFrame) : option DataFrame :=
  match concat_cols (columns a) (columns b) with
  | Some cs => Some (mk_frame (index a ++ index b) cs)
  | None => None
  end.

End pd.

Import pd.

(* ------------------------------------------------------------------------ *)
(** ** Effects *)

(** What the remote site answers to one GET: the status code and what
    BeautifulSoup extracts from the body, namely the text of the [td] cells
    of a given CSS class ([find_all_td]) and the whitespace-stripped text
    nodes of the page ([stripped_strings]), both in document order. *)
Record response : Type := mk_response
  { status_code : Z;
    find_all_td : string -> list string;
    stripped_strings : list string }.

Inductive event : Type :=
| HttpGet (url : string)
| Print (msg : string)
| Sleep (low high : Z)
| ToCsv (path : string) (df : DataFrame).

(** An action returns the trace of its effects and a value or an
    exception.  The trace of what happened before an exception is kept: a
    file written stays written. *)
Definition IO (A : Type) : Type := (list event * result A)%type.

Definition ret {A} (a : A) : IO A := ([], Ok a).

Definition bind {A B} (m : IO A) (f : A -> IO B) : IO B :=
  match m with
  | (t, Ok a) => let (t', r) := f a in (t ++ t', r)
  | (t, Raise e) => (t, Raise e)
  end.

Definition lift {A} (r : result A) : IO A := ([], r).

Definition emit (e : event) : IO unit := ([e], Ok tt).

Declare Scope io_scope.
Delimit Scope io_scope with io.
Notation "x <- m ;; k" := (bind m (fun x => k))
  (at level 100, m at next level, right associativity) : io_scope.
Notation "m ;;; k" := (bind m (fun _ => k))
  (at level 100, right associativity) : io_scope.

Definition trace {A} (m : IO A) : list event := fst m.
Definition outcome {A} (m : IO A) : result A := snd m.

(** The files a trace leaves on disk, oldest first. *)
Fixpoint csv_files (t : list event) : list (string * DataFrame) :=
  match t with
  | [] => []
  | ToCsv p df :: t' => (p, df) :: csv_files t'
  | _ :: t' => csv_files t'
  end.

(* ------------------------------------------------------------------------ *)
(** ** The script *)

Coercion LStr : string >-> label.

(** *** Constants *)

Definition phosphonet_base_url : string := "http://www.phosphonet.ca/?search=".
Definition phosphonet_kinase_url : string :=
  "http://www.phosphonet.ca/kinasepredictor.aspx?uni={}&ps={}".
Definition phos_site_class : string := "pSiteNameCol".

(** Kinases reported per phosphosite, and descriptor values per kinase. *)
Definition num_kinases_per_phos : nat := 50.
Definition phos_column_values : nat := 7.

(** What [get_kinases] returns: the initial [string_array = []] when the
    page was not served, the reshaped array otherwise. *)
Inductive kinase_array : Type :=
| EmptyList
| NdArray (a : np.ndarray).

(** [pd.DataFrame(kinase_array)] *)
Definition DataFrame_of (k : kinase_array) : DataFrame :=
  match k with
  | EmptyList => pd.empty_frame
  | NdArray a => pd.of_ndarray a
  end.

(** Command-line arguments, as [argparse] hands them over. *)
Record Args : Type := mk_args
  { ids : list string;
    outdir : string;
    sil : Z; sih : Z;
    bs : Z;
    sbl : Z; sbh : Z }.

(** *** Record normalizer *)

Definition kinase_array_to_df
  (kinase_array : kinase_array) (uniprot_id phospho_site : string)
  : result DataFrame :=
  (let df := DataFrame_of kinase_array in
   (* drop unused/duplicated columns *)
   df <- pd.drop [LInt 0; LInt 4; LInt 5] df ;;
   df <- pd.reset_index df ;;
   df <- pd.set_columns
           [LStr "kinase_rank"; LStr "kinase_name"; LStr "kinase_id";
            LStr "kinexus_score"; LStr "kinexus_score_v2"] df ;;
   rank <- pd.getitem df "kinase_rank" ;;
   rank <- pd.add_scalar rank 1 ;;
   let df := pd.setitem df "kinase_rank" rank in
   (* site position and amino acid at the beginning of the frame *)
   df <- pd.insert 0 "site" (py.str_tail phospho_site) df ;;
   aa <- py.str_head phospho_site ;;
   df <- pd.insert 0 "aa" aa df ;;
   df <- pd.insert 0 "substrate" uniprot_id df ;;
   Ok df)%result.

Section Program.

(** The remote site: the answer to a GET of each URL. *)
Variable web : string -> response.

(** Python's [int] on a string, which the cast to [int32] applies to every
    cell of a string column. *)
Variable py_int : string -> option Z.

Definition requests_get (url : string) : IO response :=
  (emit (HttpGet url) ;;; ret (web url))%io.

Definition print (msg : string) : IO unit := emit (Print msg).

(** [sleep(random.uniform(low, high))] : the trace keeps the bounds, the
    duration drawn is not modelled. *)
Definition sleep_uniform (low high : Z) : IO unit := emit (Sleep low high).

Definition to_csv (df : DataFrame) (path : string) : IO unit :=
  emit (ToCsv path df).

(** *** Site extractor *)

(** [phospho_sites] is bound in the branch of the status test only: with
    any other status the [return] reads an unbound local. *)
Definition get_phospho_sites (uniprot_id base_url tag_class : string)
  : IO (list string) :=
  (let url := (base_url ++ uniprot_id)%string in
   response <- requests_get url ;;
   let phospho_sites :=
     if (status_code response =? 200)%Z
     then Some (find_all_td response tag_class)
     else None in
   match phospho_sites with
   | Some sites => ret sites
   | None => lift (Raise UnboundLocalError)
   end)%io.

(** *** Kinase block extractor *)

Definition kinase_begin_string : string := "Kinase 1:".

Definition get_kinases (uniprot_id phospho_site base_url : string)
  : IO kinase_array :=
  (let string_array := EmptyList in
   url <- lift (py.format base_url [uniprot_id; phospho_site]) ;;
   response <- requests_get url ;;
   if (status_code response =? 200)%Z then
     print ("querying kinases for: " ++ url)%string ;;;
     let strings := stripped_strings response in
     (* where the kinase data begins *)
     start_index <- lift (py.index strings kinase_begin_string) ;;
     let end_index :=
       (num_kinases_per_phos * phos_column_values + start_index)%nat in
     string_array <-
       lift (np.reshape (py.slice strings start_index end_index)
                        num_kinases_per_phos phos_column_values) ;;
     ret (NdArray string_array)
   else ret string_array)%io.

(** *** Table assembler *)

Definition typecast_phos_df (phos_df : DataFrame) : result DataFrame :=
  (c <- pd.getitem phos_df "site" ;;
   c <- pd.astype_int32 py_int c ;;
   let phos_df := pd.setitem phos_df "site" c in
   (* comma in the kinase name to semicolon *)
   c <- pd.getitem phos_df "kinase_name" ;;
   c <- pd.str_replace ","%char ";"%char c ;;
   let phos_df := pd.setitem phos_df "kinase_name" c in
   c <- pd.getitem phos_df "kinexus_score" ;;
   c <- pd.astype_int32 py_int c ;;
   let phos_df := pd.setitem phos_df "kinexus_score" c in
   c <- pd.getitem phos_df "kinexus_score_v2" ;;
   c <- pd.astype_int32 py_int c ;;
   let phos_df := pd.setitem phos_df "kinexus_score_v2" c in
   (* the frame [reset_index(drop=True)] returns is not kept *)
   let _ := pd.reset_index_drop phos_df in
   Ok phos_df)%result.

(** *** Main loop *)

Variable args : Args.

(** One turn of the loop over the sites of a protein. *)
Definition site_body (uniprot_id : string) (phospho_site_df : DataFrame)
  (idx : nat) (site : string) : IO DataFrame :=
  (kinases <- get_kinases uniprot_id site phosphonet_kinase_url ;;
   kinases <- lift (kinase_array_to_df kinases uniprot_id site) ;;
   (* first run of the loop: initialise the final frame, append otherwise *)
   phospho_site_df <-
     (if pd.empty phospho_site_df then ret kinases
      else match pd.concat phospho_site_df kinases with
           | Some df => ret df
           | None => lift (Raise NotModelled)
           end) ;;
   sleep_uniform (sil args) (sih args) ;;;
   r <- lift (py.mod_ (Z.of_nat idx + 1) (bs args)) ;;
   (if (r =? 0)%Z
    then print "wating between batches..." ;;;
         sleep_uniform (sbl args) (sbh args)
    else ret tt) ;;;
   ret phospho_site_df)%io.

(** [for idx, site in enumerate(phospho_sites)], from position [idx] on. *)
Fixpoint site_loop (uniprot_id : string) (phospho_site_df : DataFrame)
  (idx : nat) (phospho_sites : list string) : IO DataFrame :=
  match phospho_sites with
  | [] => ret phospho_site_df
  | site :: rest =>
      (df <- site_body uniprot_id phospho_site_df idx site ;;
       site_loop uniprot_id df (S idx) rest)%io
  end.

(** The body of the loop over the requested identifiers. *)
Definition protein_body (uniprot_id : string) : IO unit :=
  (phospho_sites <-
     get_phospho_sites uniprot_id phosphonet_base_url phos_site_class ;;
   let phospho_site_df := pd.empty_frame in
   phospho_site_df <- site_loop uniprot_id phospho_site_df 0 phospho_sites ;;
   phospho_site_df <- lift (typecast_phos_df phospho_site_df) ;;
   to_csv phospho_site_df
          (outdir args ++ "/" ++ uniprot_id ++ "_phos_kinexus.csv")%string)%io.

(** [for uniprot_id in args.ids] : no handler anywhere, an exception ends
    the loop and the script. *)
Fixpoint main_loop (uniprot_ids : list string) : IO unit :=
  match uniprot_ids with
  | [] => ret tt
  | uniprot_id :: rest =>
      (protein_body uniprot_id ;;; main_loop rest)%io
  end.

Definition main : IO unit := main_loop (ids args).

End Program.

(* ------------------------------------------------------------------------ *)
(** ** Sample data

    A parser for plain decimal literals and a few pages of the remote site,
    used to run the script on concrete inputs. *)

Definition digit_val (c : ascii) : option Z :=
  let n := nat_of_ascii c in
  if ((48 <=? n) && (n <=? 57))%nat then Some (Z.of_nat (n - 48)) else None.

Fixpoint digits_val (s : string) (acc : Z) : option Z :=
  match s with
  | EmptyString => Some acc
  | String c r =>
      match digit_val c with
      | Some d => digits_val r (10 * acc + d)
      | None => None
      end
  end.

(** An optional sign and at least one digit: the literals of Python's [int]
    that the pages of the site contain. *)
Definition decimal_int (s : string) : option Z :=
  match s with
  | EmptyString => None
  | String "-"%char (String c r) => option_map Z.opp (digits_val (String c r) 0)
  | String "+"%char (String c r) => digits_val (String c r) 0
  | _ => digits_val s 0
  end.

Definition not_found : response := mk_response 404 (fun _ => []) [].

Definition search_page (sites : list string) : response :=
  mk_response 200
    (fun cls => if String.eqb cls phos_site_class then sites else []) [].

Definition kinase_page (strings : list string) : response :=
  mk_response 200 (fun _ => []) strings.

(** A site that serves the listed URLs and answers 404 to any other. *)
Fixpoint serve (routes : list (string * response)) (url : string) : response :=
  match routes with
  | [] => not_found
  | (u, r) :: routes' => if String.eqb u url then r else serve routes' url
  end.

Definition search_url (uniprot_id : string) : string :=
  (phosphonet_base_url ++ uniprot_id)%string.

Definition kinase_url (uniprot_id phospho_site : string) : string :=
  ("http://www.phosphonet.ca/kinasepredictor.aspx?uni=" ++ uniprot_id
   ++ "&ps=" ++ phospho_site)%string.

(** Fifty kinases of seven tokens each, the first one labelled by the
    marker. *)
Definition sample_block : list string :=
  ["Kinase 1:"; "EGFR"; "K1"; "950"; "y"; "z"; "940"]
  ++ List.concat
       (repeat ["Kinase n:"; "Kin,aseA"; "K2"; "900"; "u"; "v"; "800"] 49).

(** A full prediction page: a heading, the block, a footer. *)
Definition sample_strings : list string :=
  "PhosphoNET" :: sample_block ++ ["Kinexus"].

(** The block of the specification's end-to-end scenario: every row is
    [x, EGFR, K1, 950, 940, y, z]. *)
Definition scenario_block : np.ndarray :=
  np.mk_ndarray 50 7
    (List.concat (repeat ["x"; "EGFR"; "K1"; "950"; "940"; "y"; "z"] 50)).

Definition sample_args (uniprot_ids : list string) : Args :=
  mk_args uniprot_ids "." 2 5 30 30 40.

(** Two records as [kinase_array_to_df] leaves them, every descriptor still
    text, and the same two records once cast. *)
Definition sample_frame : DataFrame :=
  mk_frame [0%Z; 1%Z]
    [(LStr "substrate", ColObj ["P00533"; "P00533"]);
     (LStr "aa", ColObj ["Y"; "Y"]);
     (LStr "site", ColObj ["845"; "845"]);
     (LStr "kinase_rank", ColInt [1%Z; 2%Z]);
     (LStr "kinase_name", ColObj ["EGFR"; "Kin,aseA"]);
     (LStr "kinase_id", ColObj ["K1"; "K2"]);
     (LStr "kinexus_score", ColObj ["950"; "900"]);
     (LStr "kinexus_score_v2", ColObj ["940"; "800"])].

Definition sample_table : DataFrame :=
  mk_frame [0%Z; 1%Z]
    [(LStr "substrate", ColObj ["P00533"; "P00533"]);
     (LStr "aa", ColObj ["Y"; "Y"]);
     (LStr "site", ColInt [845%Z; 845%Z]);
     (LStr "kinase_rank", ColInt [1%Z; 2%Z]);
     (LStr "kinase_name", ColObj ["EGFR"; "Kin;aseA"]);
     (LStr "kinase_id", ColObj ["K1"; "K2"]);
     (LStr "kinexus_score", ColInt [950%Z; 900%Z]);
     (LStr "kinexus_score_v2", ColInt [940%Z; 800%Z])].

(** The sites of P00533 and a full prediction page for each. *)
Definition web_sample : string -> response :=
  serve [(search_url "P00533", search_page ["Y845"; "S1070"]);
         (kinase_url "P00533" "Y845", kinase_page sample_strings);
         (kinase_url "P00533" "S1070", kinase_page sample_strings)].

(** The prediction page is the block and nothing else: the marker and the
    349 tokens after it. *)
Definition web_bare : string -> response :=
  serve [(search_url "P00533", search_page ["Y845"]);
         (kinase_url "P00533" "Y845", kinase_page sample_block)].

(** The prediction page stops three tokens after the marker. *)
Definition web_short : string -> response :=
  serve [(search_url "P00533", search_page ["Y845"]);
         (kinase_url "P00533" "Y845",
          kinase_page ["PhosphoNET"; "Kinase 1:"; "EGFR"; "K1"; "950"])].

(** Nothing is served: every request is answered 404. *)
Definition web_down : string -> response := serve [].

(** The prediction page of the first of two sites is not served. *)
Definition web_site_down : string -> response :=
  serve [(search_url "P00533", search_page ["Y845"; "S1070"]);
         (kinase_url "P00533" "S1070", kinase_page sample_strings)].

(** The search page is served and lists no phosphosite. *)
Definition web_no_sites : string -> response :=
  serve [(search_url "P00533", search_page [])].

(** Two proteins: the only prediction page of Q00000 has lost its marker,
    P00533 is as in [web_sample]. *)
Definition web_two : string -> response :=
  serve [(search_url "Q00000", search_page ["S1"]);
         (kinase_url "Q00000" "S1", kinase_page ["PhosphoNET"; "Kinexus"]);
         (search_url "P00533", search_page ["Y845"]);
         (kinase_url "P00533" "Y845", kinase_page sample_strings)].

(** The block [get_kinases] returns for the sample page. *)
Definition sample_array : np.ndarray := np.mk_ndarray 50 7 sample_block.

(** Batches of two sites, and a batch size of zero. *)
Definition pair_args : Args := mk_args ["P00533"] "." 2 5 2 30 40.
Definition zero_batch_args : Args := mk_args ["P00533"] "." 2 5 0 30 40.

(* ------------------------------------------------------------------------ *)
(** ** Vocabulary of the statements *)

(** An action that leaves no file behind. *)
Definition writes_nothing {A} (m : IO A) : Prop := csv_files (trace m) = [].

(** An action that stays within the model. *)
Definition modelled {A} (m : IO A) : Prop := outcome m <> Raise NotModelled.

(** The labels of a frame with the kind of each column ([true] for
    integers), and what they are for a frame of kinase records. *)
Definition is_int (c : column) : bool :=
  match c with
  | ColInt _ => true
  | ColObj _ => false
  end.

Definition schema (df : DataFrame) : list (label * bool) :=
  map (fun p => (fst p, is_int (snd p))) (columns df).

Definition record_schema : list (label * bool) :=
  [(LStr "substrate", false); (LStr "aa", false); (LStr "site", false);
   (LStr "kinase_rank", true); (LStr "kinase_name", false);
   (LStr "kinase_id", false); (LStr "kinexus_score", false);
   (LStr "kinexus_score_v2", false)].

(** What the accumulator of the loop over the sites can be: still empty, or
    a frame of kinase records. *)
Definition accumulator (df : DataFrame) : Prop :=
  pd.empty df = true \/ schema df = record_schema.

(** [c in s] for a character [c]. *)
Fixpoint str_contains (c : ascii) (s : string) : bool :=
  match s with
  | EmptyString => false
  | String d r => Ascii.eqb d c || str_contains c r
  end.

(** The pattern every statement of [typecast_phos_df] follows:
    [df[l] = f(df[l])]. *)
Definition update_column (l : label) (f : column -> result column)
  (df : DataFrame) : result DataFrame :=
  (c <- pd.getitem df l ;;
   c' <- f c ;;
   Ok (pd.setitem df l c'))%result.

(** The four columns [typecast_phos_df] assigns to. *)
Definition typecast_columns : list label :=
  [LStr "site"; LStr "kinase_name"; LStr "kinexus_score";
   LStr "kinexus_score_v2"].

(** Ranks 1 to [n]. *)
Definition ranks (n : nat) : list Z := map Z.of_nat (seq 1 n).

(** The block as the specification words it: the tokens that follow the
    marker, the marker left out. *)
Definition block_after_marker (strings : list string) (start_index : nat)
  : list string :=
  py.slice strings (S start_index)
           (num_kinases_per_phos * phos_column_values + S start_index).


(** The file the main loop writes for a protein. *)
Definition csv_path (args : Args) (uniprot_id : string) : string :=
  (outdir args ++ "/" ++ uniprot_id ++ "_phos_kinexus.csv")%string.

(** [site[0:1]] : the residue letter of a site label, as a string. *)
Definition residue (site : string) : string :=
  match site with
  | EmptyString => EmptyString
  | String c _ => String c EmptyString
  end.

(** The records of several sites of one protein, one block of fifty
    kinases per site, stacked in the order of the sites.  The row labels
    restart at 0 with every site. *)
Definition records_frame
  (uniprot_id : string) (sites : list string) (blocks : list np.ndarray)
  : DataFrame :=
  mk_frame (flat_map (fun _ => pd.range 50) sites)
    [(LStr "substrate", ColObj (flat_map (fun _ => repeat uniprot_id 50) sites));
     (LStr "aa", ColObj (flat_map (fun s => repeat (residue s) 50) sites));
     (LStr "site",
      ColObj (flat_map (fun s => repeat (py.str_tail s) 50) sites));
     (LStr "kinase_rank", ColInt (flat_map (fun _ => ranks 50) sites));
     (LStr "kinase_name", ColObj (flat_map (fun a => np.col a 1) blocks));
     (LStr "kinase_id", ColObj (flat_map (fun a => np.col a 2) blocks));
     (LStr "kinexus_score", ColObj (flat_map (fun a => np.col a 3) blocks));
     (LStr "kinexus_score_v2",
      ColObj (flat_map (fun a => np.col a 6) blocks))].

(** The message printed before the pause between two batches. *)
Definition batch_message : string := "wating between batches...".

(** The effects of one turn of the loop over the sites that goes through:
    the request, the message, the pause, and after every [bs]-th site the
    longer pause. *)
Definition site_events (args : Args) (uniprot_id : string) (idx : nat)
  (site : string) : list event :=
  [HttpGet (kinase_url uniprot_id site);
   Print ("querying kinases for: " ++ kinase_url uniprot_id site)%string;
   Sleep (sil args) (sih args)]
  ++ (if ((Z.of_nat idx + 1) mod bs args =? 0)%Z
      then [Print batch_message; Sleep (sbl args) (sbh args)]
      else []).

Fixpoint loop_events (args : Args) (uniprot_id : string) (idx : nat)
  (sites : list string) : list event :=
  match sites with
  | [] => []
  | site :: rest =>
      site_events args uniprot_id idx site
      ++ loop_events args uniprot_id (S idx) rest
  end.

(** Counting the effects of a trace. *)
Definition is_request (e : event) : bool :=
  match e with HttpGet _ => true | _ => false end.

Definition is_sleep (e : event) : bool :=
  match e with Sleep _ _ => true | _ => false end.

Definition is_batch_message (e : event) : bool :=
  match e with Print m => String.eqb m batch_message | _ => false end.

Definition requests (t : list event) : nat := length (filter is_request t).
Definition sleeps (t : list event) : nat := length (filter is_sleep t).
Definition batch_pauses (t : list event) : nat :=
  length (filter is_batch_message t).

(** The accumulator of the loop over the sites after the sites [done],
    whose blocks were [blocks]. *)
Definition accumulated (uniprot_id : string) (done : list string)
  (blocks : list np.ndarray) (df : DataFrame) : Prop :=
  (done = [] /\ blocks = [] /\ df = pd.empty_frame) \/
  (done <> [] /\ df = records_frame uniprot_id done blocks).

(* ------------------------------------------------------------------------ *)
(** ** Association lists of columns *)

Lemma label_eqb_refl (l : label) : label_eqb l l = true.
Proof.
  destruct l; simpl; [apply Nat.eqb_refl | apply String.eqb_refl].
Qed.

Lemma label_eqb_eq (l m : label) : label_eqb l m = true <-> l = m.
Proof.
  destruct l, m; simpl; split; intros H; try discriminate.
  - apply Nat.eqb_eq in H; now subst.
  - inversion H; apply Nat.eqb_refl.
  - apply String.eqb_eq in H; now subst.
  - inversion H; apply String.eqb_refl.
Qed.

Lemma label_eqb_neq (l m : label) : label_eqb l m = false <-> l <> m.
Proof.
  rewrite <- label_eqb_eq. destruct (label_eqb l m); split; congruence.
Qed.

Lemma label_eqb_trans_false (k l m : label) :
  label_eqb k l = true -> label_eqb l m = false -> label_eqb k m = false.
Proof.
  intros H1 H2. apply label_eqb_eq in H1. now subst.
Qed.

Lemma lookup_update_same cs l c : pd.lookup (pd.update cs l c) l = Ok c.
Proof.
  induction cs as [|[m d] cs IH]; simpl.
  - now rewrite label_eqb_refl.
  - destruct (label_eqb m l) eqn:E; simpl; now rewrite E.
Qed.

Lemma lookup_update_other cs l m c :
  label_eqb l m = false ->
  pd.lookup (pd.update cs l c) m = pd.lookup cs m.
Proof.
  intros Hlm. induction cs as [|[k d] cs IH]; simpl.
  - now rewrite Hlm.
  - destruct (label_eqb k l) eqn:E; simpl.
    + now rewrite (label_eqb_trans_false _ _ _ E Hlm).
    + now rewrite IH.
Qed.

Lemma update_lookup_id cs l c :
  pd.lookup cs l = Ok c -> pd.update cs l c = cs.
Proof.
  induction cs as [|[m d] cs IH]; simpl; [discriminate|].
  destruct (label_eqb m l); intros H.
  - now inversion H.
  - now rewrite IH.
Qed.

Lemma labels_update_present cs l c d :
  pd.lookup cs l = Ok d -> map fst (pd.update cs l c) = map fst cs.
Proof.
  induction cs as [|[m e] cs IH]; simpl; [discriminate|].
  destruct (label_eqb m l); intros H; simpl; [reflexivity|].
  now rewrite IH.
Qed.

Lemma setitem_getitem_same df l c :
  pd.getitem (pd.setitem df l c) l = Ok c.
Proof. apply lookup_update_same. Qed.

Lemma setitem_getitem_other df l m c :
  label_eqb l m = false ->
  pd.getitem (pd.setitem df l c) m = pd.getitem df m.
Proof. apply lookup_update_other. Qed.

Lemma setitem_same_column df l c :
  pd.getitem df l = Ok c -> pd.setitem df l c = df.
Proof.
  destruct df as [ix cs]; unfold pd.getitem, pd.setitem; simpl; intros H.
  now rewrite update_lookup_id.
Qed.

(** *** One column update *)

Lemma update_column_inv l f df df' :
  update_column l f df = Ok df' ->
  exists c c', pd.getitem df l = Ok c /\ f c = Ok c' /\
               df' = pd.setitem df l c'.
Proof.
  unfold update_column.
  destruct (pd.getitem df l) as [c|e]; simpl; [|discriminate].
  destruct (f c) as [c'|e] eqn:Hf; simpl; [|discriminate].
  intros H; inversion H. exists c, c'. now repeat split.
Qed.

Lemma update_column_fixed l f df c :
  pd.getitem df l = Ok c -> f c = Ok c -> update_column l f df = Ok df.
Proof.
  intros Hg Hf. unfold update_column. rewrite Hg; simpl. rewrite Hf; simpl.
  now rewrite setitem_same_column.
Qed.

Lemma update_column_index l f df df' :
  update_column l f df = Ok df' -> pd.index df' = pd.index df.
Proof.
  intros H. destruct (update_column_inv _ _ _ _ H) as (c & c' & _ & _ & ->).
  reflexivity.
Qed.

Lemma update_column_labels l f df df' :
  update_column l f df = Ok df' -> pd.labels df' = pd.labels df.
Proof.
  intros H. destruct (update_column_inv _ _ _ _ H) as (c & c' & Hg & _ & ->).
  unfold pd.labels; simpl. eapply labels_update_present, Hg.
Qed.

Lemma update_column_other l f df df' m :
  update_column l f df = Ok df' -> label_eqb l m = false ->
  pd.getitem df' m = pd.getitem df m.
Proof.
  intros H Hlm. destruct (update_column_inv _ _ _ _ H) as (c & c' & _ & _ & ->).
  now apply setitem_getitem_other.
Qed.

Lemma update_column_same l f df df' :
  update_column l f df = Ok df' ->
  exists c c', pd.getitem df l = Ok c /\ f c = Ok c' /\
               pd.getitem df' l = Ok c'.
Proof.
  intros H. destruct (update_column_inv _ _ _ _ H) as (c & c' & Hg & Hf & ->).
  exists c, c'. repeat split; trivial. apply setitem_getitem_same.
Qed.

(** The assembler is four column updates in a row. *)
Lemma typecast_phos_df_steps py_int df :
  typecast_phos_df py_int df =
  (d <- update_column "site" (pd.astype_int32 py_int) df ;;
   d <- update_column "kinase_name" (pd.str_replace ","%char ";"%char) d ;;
   d <- update_column "kinexus_score" (pd.astype_int32 py_int) d ;;
   update_column "kinexus_score_v2" (pd.astype_int32 py_int) d)%result.
Proof.
  unfold typecast_phos_df, update_column.
  repeat match goal with
         | |- context [rbind ?m _] =>
             match m with
             | rbind _ _ => fail 1
             | _ => destruct m; simpl; try reflexivity
             end
         end.
Qed.

Lemma typecast_phos_df_inv py_int df df' :
  typecast_phos_df py_int df = Ok df' ->
  exists d1 d2 d3,
    update_column "site" (pd.astype_int32 py_int) df = Ok d1 /\
    update_column "kinase_name" (pd.str_replace ","%char ";"%char) d1 = Ok d2 /\
    update_column "kinexus_score" (pd.astype_int32 py_int) d2 = Ok d3 /\
    update_column "kinexus_score_v2" (pd.astype_int32 py_int) d3 = Ok df'.
Proof.
  rewrite typecast_phos_df_steps.
  destruct (update_column "site" _ df) as [d1|] eqn:H1; simpl;
    [|discriminate].
  destruct (update_column "kinase_name" _ d1) as [d2|] eqn:H2; simpl;
    [|discriminate].
  destruct (update_column "kinexus_score" _ d2) as [d3|] eqn:H3; simpl;
    [|discriminate].
  intros H. exists d1, d2, d3. now repeat split.
Qed.

(** *** The two column operations *)

Lemma wrap32_bounds z : (pd.int32_min <= pd.wrap32 z <= pd.int32_max)%Z.
Proof.
  unfold pd.wrap32, pd.int32_min, pd.int32_max.
  pose proof (Z.mod_pos_bound (z + 2 ^ 31) (2 ^ 32) ltac:(lia)). lia.
Qed.

Lemma wrap32_small z :
  (pd.int32_min <= z <= pd.int32_max)%Z -> pd.wrap32 z = z.
Proof.
  unfold pd.wrap32, pd.int32_min, pd.int32_max. intros H.
  rewrite Z.mod_small; lia.
Qed.

Lemma wrap32_idem z : pd.wrap32 (pd.wrap32 z) = pd.wrap32 z.
Proof. apply wrap32_small, wrap32_bounds. Qed.

Lemma int32_of_str_bounds py_int s z :
  pd.int32_of_str py_int s = Ok z ->
  (pd.int32_min <= z <= pd.int32_max)%Z.
Proof.
  unfold pd.int32_of_str. destruct (py_int s) as [y|]; [|discriminate].
  destruct ((pd.int32_min <=? y) && (y <=? pd.int32_max))%Z eqn:E;
    [|discriminate].
  intros H; inversion H; subst.
  apply andb_true_iff in E. destruct E as [E1 E2].
  apply Z.leb_le in E1, E2. lia.
Qed.

Lemma cast_all_inv py_int s l r :
  pd.cast_all py_int (s :: l) = Ok r ->
  exists z r', pd.int32_of_str py_int s = Ok z /\
               pd.cast_all py_int l = Ok r' /\ r = z :: r'.
Proof.
  simpl. destruct (pd.int32_of_str py_int s) as [z|]; simpl; [|discriminate].
  destruct (pd.cast_all py_int l) as [r'|]; simpl; [|discriminate].
  intros H; inversion H. exists z, r'. now repeat split.
Qed.

Lemma cast_all_bounds py_int l : forall r,
  pd.cast_all py_int l = Ok r ->
  Forall (fun z => pd.int32_min <= z <= pd.int32_max)%Z r.
Proof.
  induction l as [|s l IH]; intros r H.
  - inversion H; constructor.
  - apply cast_all_inv in H. destruct H as (z & r' & Hz & Hr & ->).
    constructor; [eapply int32_of_str_bounds, Hz | now apply IH].
Qed.

Lemma cast_all_length py_int l : forall r,
  pd.cast_all py_int l = Ok r -> length r = length l.
Proof.
  induction l as [|s l IH]; intros r H.
  - now inversion H.
  - apply cast_all_inv in H. destruct H as (z & r' & _ & Hr & ->).
    simpl. now rewrite (IH _ Hr).
Qed.

Lemma map_wrap32_small l :
  Forall (fun z => pd.int32_min <= z <= pd.int32_max)%Z l ->
  map pd.wrap32 l = l.
Proof.
  induction 1 as [|z l Hz _ IH]; simpl; [reflexivity|].
  now rewrite wrap32_small, IH.
Qed.

(** Casting what a cast returned changes nothing. *)
Lemma astype_int32_fixed py_int c c' :
  pd.astype_int32 py_int c = Ok c' -> pd.astype_int32 py_int c' = Ok c'.
Proof.
  destruct c as [l|l]; simpl.
  - destruct (pd.cast_all py_int l) as [r|] eqn:E; simpl; [|discriminate].
    intros H; inversion H; subst; simpl.
    now rewrite (map_wrap32_small _ (cast_all_bounds _ _ _ E)).
  - intros H; inversion H; subst; simpl.
    rewrite map_map. f_equal. f_equal. apply map_ext. intros; apply wrap32_idem.
Qed.

Lemma astype_int32_len py_int c c' :
  pd.astype_int32 py_int c = Ok c' -> pd.col_len c' = pd.col_len c.
Proof.
  destruct c as [l|l]; simpl.
  - destruct (pd.cast_all py_int l) as [r|] eqn:E; simpl; [|discriminate].
    intros H; inversion H; subst; simpl. eapply cast_all_length, E.
  - intros H; inversion H; subst; simpl. apply length_map.
Qed.

Lemma py_str_replace_idem s :
  py.str_replace ","%char ";"%char (py.str_replace ","%char ";"%char s)
  = py.str_replace ","%char ";"%char s.
Proof.
  induction s as [|c s IH]; simpl; [reflexivity|].
  rewrite IH. destruct (Ascii.eqb c ","%char) eqn:E; simpl.
  - reflexivity.
  - now rewrite E.
Qed.

Lemma py_str_replace_no_comma s :
  str_contains ","%char (py.str_replace ","%char ";"%char s) = false.
Proof.
  induction s as [|c s IH]; simpl; [reflexivity|].
  rewrite IH. destruct (Ascii.eqb c ","%char) eqn:E; simpl.
  - reflexivity.
  - now rewrite E.
Qed.

Lemma str_replace_inv c c' :
  pd.str_replace ","%char ";"%char c = Ok c' ->
  exists raw, c = ColObj raw /\
              c' = ColObj (map (py.str_replace ","%char ";"%char) raw).
Proof.
  destruct c as [l|l]; simpl; [|discriminate].
  intros H; inversion H. now exists l.
Qed.

Lemma str_replace_fixed c c' :
  pd.str_replace ","%char ";"%char c = Ok c' ->
  pd.str_replace ","%char ";"%char c' = Ok c'.
Proof.
  intros H. apply str_replace_inv in H. destruct H as (raw & -> & ->).
  simpl. rewrite map_map. f_equal. f_equal.
  apply map_ext. intros; apply py_str_replace_idem.
Qed.

Lemma str_replace_len c c' :
  pd.str_replace ","%char ";"%char c = Ok c' -> pd.col_len c' = pd.col_len c.
Proof.
  intros H. apply str_replace_inv in H. destruct H as (raw & -> & ->).
  simpl. apply length_map.
Qed.

(** A column update keeps the number of cells of every column, provided the
    operation does. *)
Lemma update_column_len l f df df' m c :
  (forall x y, f x = Ok y -> pd.col_len y = pd.col_len x) ->
  update_column l f df = Ok df' ->
  pd.getitem df m = Ok c ->
  exists c', pd.getitem df' m = Ok c' /\ pd.col_len c' = pd.col_len c.
Proof.
  intros Hf H Hm.
  destruct (label_eqb l m) eqn:E.
  - apply label_eqb_eq in E; subst m.
    destruct (update_column_same _ _ _ _ H) as (x & y & Hx & Hy & Hy').
    exists y. split; [assumption|].
    rewrite Hx in Hm; inversion Hm; subst. now apply Hf.
  - exists c. split; [|reflexivity].
    now rewrite (update_column_other _ _ _ _ _ H E).
Qed.

(* ------------------------------------------------------------------------ *)
(** ** The table assembler *)

(** C8.  [typecast_phos_df] is idempotent: a table it returns is accepted
    again and comes back unchanged, whatever the integer parser. *)
Theorem typecast_phos_df_idempotent py_int df df' :
  typecast_phos_df py_int df = Ok df' ->
  typecast_phos_df py_int df' = Ok df'.
Proof.
  intros H.
  destruct (typecast_phos_df_inv _ _ _ H) as (d1 & d2 & d3 & H1 & H2 & H3 & H4).
  destruct (update_column_same _ _ _ _ H1) as (a1 & b1 & _ & F1 & G1).
  destruct (update_column_same _ _ _ _ H2) as (a2 & b2 & _ & F2 & G2).
  destruct (update_column_same _ _ _ _ H3) as (a3 & b3 & _ & F3 & G3).
  destruct (update_column_same _ _ _ _ H4) as (a4 & b4 & _ & F4 & G4).
  rewrite <- (update_column_other _ _ _ _ "site" H2 eq_refl) in G1.
  rewrite <- (update_column_other _ _ _ _ "site" H3 eq_refl) in G1.
  rewrite <- (update_column_other _ _ _ _ "site" H4 eq_refl) in G1.
  rewrite <- (update_column_other _ _ _ _ "kinase_name" H3 eq_refl) in G2.
  rewrite <- (update_column_other _ _ _ _ "kinase_name" H4 eq_refl) in G2.
  rewrite <- (update_column_other _ _ _ _ "kinexus_score" H4 eq_refl) in G3.
  rewrite typecast_phos_df_steps.
  rewrite (update_column_fixed _ _ _ _ G1 (astype_int32_fixed _ _ _ F1)); simpl.
  rewrite (update_column_fixed _ _ _ _ G2 (str_replace_fixed _ _ F2)); simpl.
  rewrite (update_column_fixed _ _ _ _ G3 (astype_int32_fixed _ _ _ F3)); simpl.
  apply (update_column_fixed _ _ _ _ G4 (astype_int32_fixed _ _ _ F4)).
Qed.

(** The two sample records: cast once, then cast again. *)
Lemma typecast_phos_df_idempotent_witness :
  typecast_phos_df decimal_int sample_frame = Ok sample_table /\
  typecast_phos_df decimal_int sample_table = Ok sample_table.
Proof.
  split; [reflexivity|].
  apply (typecast_phos_df_idempotent decimal_int sample_frame). reflexivity.
Defined.

(** C9.  In a table [typecast_phos_df] returns, the [kinase_name] column is
    the raw column with every comma replaced by a semicolon, and none of its
    fields contains a comma. *)
Theorem typecast_phos_df_no_comma py_int df df' :
  typecast_phos_df py_int df = Ok df' ->
  exists raw,
    pd.getitem df "kinase_name" = Ok (ColObj raw) /\
    pd.getitem df' "kinase_name"
      = Ok (ColObj (map (py.str_replace ","%char ";"%char) raw)) /\
    Forall (fun name => str_contains ","%char name = false)
           (map (py.str_replace ","%char ";"%char) raw).
Proof.
  intros H.
  destruct (typecast_phos_df_inv _ _ _ H) as (d1 & d2 & d3 & H1 & H2 & H3 & H4).
  destruct (update_column_same _ _ _ _ H2) as (a & b & Ga & F & Gb).
  apply str_replace_inv in F. destruct F as (raw & -> & ->).
  exists raw. repeat split.
  - now rewrite <- (update_column_other _ _ _ _ "kinase_name" H1 eq_refl).
  - rewrite (update_column_other _ _ _ _ "kinase_name" H4 eq_refl).
    now rewrite (update_column_other _ _ _ _ "kinase_name" H3 eq_refl).
  - apply Forall_forall. intros name Hin. apply in_map_iff in Hin.
    destruct Hin as (s & <- & _). apply py_str_replace_no_comma.
Qed.

(** The two sample records: [Kin,aseA] comes out as [Kin;aseA]. *)
Lemma typecast_phos_df_no_comma_witness :
  exists raw,
    pd.getitem sample_frame "kinase_name" = Ok (ColObj raw) /\
    pd.getitem sample_table "kinase_name"
      = Ok (ColObj (map (py.str_replace ","%char ";"%char) raw)) /\
    Forall (fun name => str_contains ","%char name = false)
           (map (py.str_replace ","%char ";"%char) raw).
Proof.
  apply (typecast_phos_df_no_comma decimal_int sample_frame sample_table).
  reflexivity.
Defined.

(** C10.  [typecast_phos_df] touches the four columns it assigns and nothing
    else: the row labels (hence the number and order of rows), the column
    labels and their order, the number of cells of every column, and every
    column other than [site], [kinase_name], [kinexus_score] and
    [kinexus_score_v2] -- [substrate], [aa], [kinase_rank] and [kinase_id]
    among them -- are those of the input. *)
Theorem typecast_phos_df_frame py_int df df' :
  typecast_phos_df py_int df = Ok df' ->
  pd.index df' = pd.index df /\
  pd.labels df' = pd.labels df /\
  (forall l c, pd.getitem df l = Ok c ->
     exists c', pd.getitem df' l = Ok c' /\ pd.col_len c' = pd.col_len c) /\
  (forall l, ~ In l typecast_columns -> pd.getitem df' l = pd.getitem df l) /\
  pd.getitem df' "substrate" = pd.getitem df "substrate" /\
  pd.getitem df' "aa" = pd.getitem df "aa" /\
  pd.getitem df' "kinase_rank" = pd.getitem df "kinase_rank" /\
  pd.getitem df' "kinase_id" = pd.getitem df "kinase_id".
Proof.
  intros H.
  destruct (typecast_phos_df_inv _ _ _ H) as (d1 & d2 & d3 & H1 & H2 & H3 & H4).
  assert (Hother : forall l, ~ In l typecast_columns ->
                             pd.getitem df' l = pd.getitem df l).
  { intros l Hl. unfold typecast_columns in Hl; simpl in Hl.
    rewrite (update_column_other _ _ _ _ l H4)
      by (apply label_eqb_neq; intros E; apply Hl; auto).
    rewrite (update_column_other _ _ _ _ l H3)
      by (apply label_eqb_neq; intros E; apply Hl; auto).
    rewrite (update_column_other _ _ _ _ l H2)
      by (apply label_eqb_neq; intros E; apply Hl; auto).
    apply (update_column_other _ _ _ _ l H1).
    apply label_eqb_neq; intros E; apply Hl; auto. }
  split; [|split; [|split; [|split; [exact Hother|]]]].
  - rewrite (update_column_index _ _ _ _ H4), (update_column_index _ _ _ _ H3),
      (update_column_index _ _ _ _ H2).
    apply (update_column_index _ _ _ _ H1).
  - rewrite (update_column_labels _ _ _ _ H4),
      (update_column_labels _ _ _ _ H3), (update_column_labels _ _ _ _ H2).
    apply (update_column_labels _ _ _ _ H1).
  - intros l c Hc.
    destruct (update_column_len _ _ _ _ l c (astype_int32_len py_int) H1 Hc)
      as (c1 & Hc1 & L1).
    destruct (update_column_len _ _ _ _ l c1 str_replace_len H2 Hc1)
      as (c2 & Hc2 & L2).
    destruct (update_column_len _ _ _ _ l c2 (astype_int32_len py_int) H3 Hc2)
      as (c3 & Hc3 & L3).
    destruct (update_column_len _ _ _ _ l c3 (astype_int32_len py_int) H4 Hc3)
      as (c4 & Hc4 & L4).
    exists c4. split; [assumption | congruence].
  - repeat split; apply Hother; unfold typecast_columns; simpl;
      intros [E|[E|[E|[E|[]]]]]; discriminate E.
Qed.

(** The two sample records before and after the cast. *)
Lemma typecast_phos_df_frame_witness :
  pd.index sample_table = pd.index sample_frame /\
  pd.labels sample_table = pd.labels sample_frame /\
  (forall l c, pd.getitem sample_frame l = Ok c ->
     exists c', pd.getitem sample_table l = Ok c' /\
                pd.col_len c' = pd.col_len c) /\
  (forall l, ~ In l typecast_columns ->
     pd.getitem sample_table l = pd.getitem sample_frame l) /\
  pd.getitem sample_table "substrate" = pd.getitem sample_frame "substrate" /\
  pd.getitem sample_table "aa" = pd.getitem sample_frame "aa" /\
  pd.getitem sample_table "kinase_rank"
    = pd.getitem sample_frame "kinase_rank" /\
  pd.getitem sample_table "kinase_id" = pd.getitem sample_frame "kinase_id".
Proof.
  apply (typecast_phos_df_frame decimal_int sample_frame sample_table).
  reflexivity.
Defined.

(* ------------------------------------------------------------------------ *)
(** ** The kinase block extractor *)

Lemma py_index_nth l x : forall k,
  py.index l x = Ok k -> nth_error l k = Some x.
Proof.
  induction l as [|y l IH]; simpl; intros k H; [discriminate|].
  destruct (String.eqb y x) eqn:E.
  - inversion H; subst. apply String.eqb_eq in E. now subst.
  - destruct (py.index l x) as [i|]; simpl in H; [|discriminate].
    inversion H; subst. simpl. now apply IH.
Qed.

Lemma py_index_lt l x k : py.index l x = Ok k -> k < length l.
Proof.
  intros H. apply py_index_nth in H. apply nth_error_Some. congruence.
Qed.

Lemma slice_length {A} (l : list A) start stop :
  length (py.slice l start stop) = Nat.min (stop - start) (length l - start).
Proof. unfold py.slice. now rewrite length_firstn, length_skipn. Qed.

Lemma slice_nth_error {A} (l : list A) start stop i :
  i < stop - start ->
  nth_error (py.slice l start stop) i = nth_error l (start + i).
Proof.
  intros Hi. unfold py.slice. rewrite nth_error_firstn.
  destruct (Nat.ltb_spec i (stop - start)); [|lia].
  apply nth_error_skipn.
Qed.

(** The reshape accepts the slice exactly when 350 tokens are left from
    [start] on. *)
Lemma reshape_slice_full (strings : list string) start :
  start + 350 <= length strings ->
  np.reshape (py.slice strings start (350 + start)) 50 7
  = Ok (np.mk_ndarray 50 7 (py.slice strings start (350 + start))).
Proof.
  intros H. unfold np.reshape. rewrite slice_length.
  destruct (Nat.eqb_spec
              (Nat.min (350 + start - start) (length strings - start))
              (50 * 7)) as [E|E]; [reflexivity | lia].
Qed.

Lemma reshape_slice_short (strings : list string) start :
  length strings < start + 350 ->
  np.reshape (py.slice strings start (350 + start)) 50 7 = Raise ValueError.
Proof.
  intros H. unfold np.reshape. rewrite slice_length.
  destruct (Nat.eqb_spec
              (Nat.min (350 + start - start) (length strings - start))
              (50 * 7)) as [E|E]; [lia | reflexivity].
Qed.

(** What [get_kinases] does with a page that was served... *)
Lemma get_kinases_served web uniprot_id phospho_site base_url url :
  py.format base_url [uniprot_id; phospho_site] = Ok url ->
  status_code (web url) = 200%Z ->
  get_kinases web uniprot_id phospho_site base_url =
  ([HttpGet url; Print ("querying kinases for: " ++ url)%string],
   (start_index <-
      py.index (stripped_strings (web url)) kinase_begin_string ;;
    a <- np.reshape
           (py.slice (stripped_strings (web url)) start_index
                     (350 + start_index)) 50 7 ;;
    Ok (NdArray a))%result).
Proof.
  intros Hf Hs. unfold get_kinases. rewrite Hf.
  unfold lift, requests_get, print, emit, ret, bind at 1 2 3.
  rewrite Hs. change (200 =? 200)%Z with true. cbv iota.
  unfold bind at 1.
  change (num_kinases_per_phos * phos_column_values) with 350.
  destruct (py.index _ _) as [k|e]; unfold bind; simpl rbind;
    [|reflexivity].
  change num_kinases_per_phos with 50. change phos_column_values with 7.
  destruct (np.reshape _ 50 7); reflexivity.
Qed.

(** ... and with one that was not. *)
Lemma get_kinases_unserved web uniprot_id phospho_site base_url url :
  py.format base_url [uniprot_id; phospho_site] = Ok url ->
  status_code (web url) <> 200%Z ->
  get_kinases web uniprot_id phospho_site base_url
  = ([HttpGet url], Ok EmptyList).
Proof.
  intros Hf Hs. unfold get_kinases. rewrite Hf.
  unfold lift, requests_get, print, emit, ret, bind at 1 2 3.
  destruct (Z.eqb_spec (status_code (web url)) 200); [contradiction|].
  reflexivity.
Qed.

Lemma get_kinases_bad_template web uniprot_id phospho_site base_url e :
  py.format base_url [uniprot_id; phospho_site] = Raise e ->
  get_kinases web uniprot_id phospho_site base_url = ([], Raise e).
Proof. intros Hf. unfold get_kinases. now rewrite Hf. Qed.

Lemma append_empty_r (s : string) : (s ++ "")%string = s.
Proof. induction s as [|c s IH]; simpl; [reflexivity | now rewrite IH]. Qed.

(** The script's own template always formats. *)
Lemma phosphonet_kinase_url_format uniprot_id phospho_site :
  py.format phosphonet_kinase_url [uniprot_id; phospho_site]
  = Ok (kinase_url uniprot_id phospho_site).
Proof.
  unfold phosphonet_kinase_url, kinase_url. simpl.
  now rewrite append_empty_r.
Qed.

(** C1, as the code has it.  When the prediction page is served and at least
    350 tokens remain from the first occurrence of the marker on, the marker
    counted, [get_kinases] returns the 50 x 7 array whose buffer is those
    350 tokens in page order: the marker itself is row 0, column 0, and
    row [i], column [j] is the token [7 i + j] places after the marker. *)
Theorem get_kinases_block web uniprot_id phospho_site base_url url start_index :
  py.format base_url [uniprot_id; phospho_site] = Ok url ->
  status_code (web url) = 200%Z ->
  py.index (stripped_strings (web url)) kinase_begin_string = Ok start_index ->
  start_index + 350 <= length (stripped_strings (web url)) ->
  let strings := stripped_strings (web url) in
  let a :=
    np.mk_ndarray 50 7 (py.slice strings start_index (350 + start_index)) in
  outcome (get_kinases web uniprot_id phospho_site base_url) = Ok (NdArray a) /\
  length (np.flat a) = 350 /\
  np.item a 0 0 = Some kinase_begin_string /\
  (forall i j, i < 50 -> j < 7 ->
     np.item a i j = nth_error strings (start_index + (i * 7 + j))).
Proof.
  intros Hf Hs Hi Hlen strings a.
  assert (Hflat : length (np.flat a) = 350).
  { subst a; simpl. rewrite slice_length. fold strings in Hlen. lia. }
  assert (Hitem : forall i j, i < 50 -> j < 7 ->
            np.item a i j = nth_error strings (start_index + (i * 7 + j))).
  { intros i j Hi50 Hj7. unfold np.item. subst a. simpl np.nrows.
    simpl np.ncols. simpl np.flat.
    destruct (Nat.ltb_spec i 50); [|lia].
    destruct (Nat.ltb_spec j 7); [|lia].
    simpl andb. cbv iota. apply slice_nth_error. lia. }
  repeat split; trivial.
  - rewrite (get_kinases_served _ _ _ _ _ Hf Hs). unfold outcome. simpl snd.
    rewrite Hi. cbn [rbind]. now rewrite reshape_slice_full.
  - rewrite (Hitem 0 0) by lia. rewrite Nat.add_0_r.
    now apply py_index_nth.
Qed.

(** The sample page: the marker stands at position 1, after the heading. *)
Lemma get_kinases_block_witness :
  let strings := stripped_strings (web_sample (kinase_url "P00533" "Y845")) in
  let a := np.mk_ndarray 50 7 (py.slice strings 1 (350 + 1)) in
  outcome (get_kinases web_sample "P00533" "Y845" phosphonet_kinase_url)
    = Ok (NdArray a) /\
  length (np.flat a) = 350 /\
  np.item a 0 0 = Some kinase_begin_string /\
  (forall i j, i < 50 -> j < 7 ->
     np.item a i j = nth_error strings (1 + (i * 7 + j))).
Proof.
  apply (get_kinases_block web_sample "P00533" "Y845" phosphonet_kinase_url
           (kinase_url "P00533" "Y845") 1).
  - reflexivity.
  - reflexivity.
  - reflexivity.
  - vm_compute. lia.
Defined.

(** C1 as stated fails: on the sample page the marker stands at position 1,
    the block [get_kinases] returns has the marker in row 0, column 0, not
    the token that follows it, and is not the 350 tokens after the marker. *)
Lemma get_kinases_marker_in_block :
  let strings := stripped_strings (web_sample (kinase_url "P00533" "Y845")) in
  py.index strings kinase_begin_string = Ok 1 /\
  exists a,
    outcome (get_kinases web_sample "P00533" "Y845" phosphonet_kinase_url)
      = Ok (NdArray a) /\
    np.item a 0 0 = Some kinase_begin_string /\
    np.item a 0 0 <> nth_error strings 2 /\
    np.flat a <> block_after_marker strings 1.
Proof.
  split; [reflexivity|].
  exists (np.mk_ndarray 50 7 sample_block).
  split; [vm_compute; reflexivity|].
  split; [reflexivity|].
  split; intros H; vm_compute in H; discriminate H.
Qed.

(** C5, as the code has it.  When the prediction page is served, contains
    the marker, and fewer than 350 tokens remain from the first occurrence
    of the marker on, the marker counted, the reshape refuses the slice and
    [get_kinases] raises [ValueError]: no block is returned. *)
Theorem get_kinases_short_stream
  web uniprot_id phospho_site base_url url start_index :
  py.format base_url [uniprot_id; phospho_site] = Ok url ->
  status_code (web url) = 200%Z ->
  py.index (stripped_strings (web url)) kinase_begin_string = Ok start_index ->
  length (stripped_strings (web url)) < start_index + 350 ->
  get_kinases web uniprot_id phospho_site base_url
  = ([HttpGet url; Print ("querying kinases for: " ++ url)%string],
     Raise ValueError).
Proof.
  intros Hf Hs Hi Hlen.
  rewrite (get_kinases_served _ _ _ _ _ Hf Hs). rewrite Hi. cbn [rbind].
  now rewrite reshape_slice_short.
Qed.

(** A page that stops three tokens after the marker. *)
Lemma get_kinases_short_stream_witness :
  get_kinases web_short "P00533" "Y845" phosphonet_kinase_url
  = ([HttpGet (kinase_url "P00533" "Y845");
      Print ("querying kinases for: " ++ kinase_url "P00533" "Y845")%string],
     Raise ValueError).
Proof.
  apply (get_kinases_short_stream web_short "P00533" "Y845"
           phosphonet_kinase_url (kinase_url "P00533" "Y845") 1).
  - reflexivity.
  - reflexivity.
  - reflexivity.
  - vm_compute. lia.
Defined.

(** C5 as stated fails: a page made of the marker and exactly 349 tokens
    after it has fewer than 350 tokens after the marker, and [get_kinases]
    returns a block for it instead of raising. *)
Lemma get_kinases_349_after_marker :
  let strings := stripped_strings (web_bare (kinase_url "P00533" "Y845")) in
  py.index strings kinase_begin_string = Ok 0 /\
  length (skipn 1 strings) = 349 /\
  outcome (get_kinases web_bare "P00533" "Y845" phosphonet_kinase_url)
  = Ok (NdArray (np.mk_ndarray 50 7 strings)).
Proof.
  split; [reflexivity|]. split; [reflexivity|]. vm_compute. reflexivity.
Qed.

(* ------------------------------------------------------------------------ *)
(** ** The record normalizer *)

Lemma np_col_item a i j :
  i < np.nrows a -> j < np.ncols a ->
  length (np.flat a) = np.nrows a * np.ncols a ->
  nth_error (np.col a j) i = np.item a i j.
Proof.
  intros Hi Hj Hlen. unfold np.col, np.item.
  destruct (Nat.ltb_spec i (np.nrows a)); [|lia].
  destruct (Nat.ltb_spec j (np.ncols a)); [|lia].
  simpl andb. cbv iota.
  rewrite nth_error_map, nth_error_seq.
  destruct (Nat.ltb_spec i (np.nrows a)); [|lia].
  simpl. symmetry. apply nth_error_nth'. nia.
Qed.

Lemma ranks_nth n i : i < n -> nth_error (ranks n) i = Some (Z.of_nat i + 1)%Z.
Proof.
  intros Hi. unfold ranks. rewrite nth_error_map, nth_error_seq.
  destruct (Nat.ltb_spec i n); [|lia]. simpl. f_equal. lia.
Qed.

(** The frame built from an array of shape 50 x 7. *)
Lemma kinase_array_to_df_frame
  (a : np.ndarray) (uniprot_id : string) (aa : ascii) (position : string) :
  np.nrows a = 50 -> np.ncols a = 7 ->
  kinase_array_to_df (NdArray a) uniprot_id (String aa position)
  = Ok (mk_frame (pd.range 50)
          [(LStr "substrate", ColObj (repeat uniprot_id 50));
           (LStr "aa", ColObj (repeat (String aa EmptyString) 50));
           (LStr "site", ColObj (repeat position 50));
           (LStr "kinase_rank", ColInt (ranks 50));
           (LStr "kinase_name", ColObj (np.col a 1));
           (LStr "kinase_id", ColObj (np.col a 2));
           (LStr "kinexus_score", ColObj (np.col a 3));
           (LStr "kinexus_score_v2", ColObj (np.col a 6))]).
Proof.
  intros Hr Hc. destruct a as [r c l]. simpl in Hr, Hc. subst r c.
  unfold kinase_array_to_df, DataFrame_of, pd.of_ndarray, np.col.
  reflexivity.
Qed.

(** C2, as the code has it.  From a 50 x 7 block, a protein id and a site
    label made of a residue letter and a position, [kinase_array_to_df]
    builds 50 records, in block order, with [kinase_rank] running from 1 to
    50, [kinase_name], [kinase_id], [kinexus_score] taken from columns 1, 2
    and 3 of the block and [kinexus_score_v2] from column 6; columns 0, 4
    and 5 are dropped.  Every record carries the protein id, the residue
    letter and the position text. *)
Theorem kinase_array_to_df_records
  (a : np.ndarray) (uniprot_id : string) (aa : ascii) (position : string) :
  np.nrows a = 50 -> np.ncols a = 7 -> length (np.flat a) = 350 ->
  kinase_array_to_df (NdArray a) uniprot_id (String aa position)
  = Ok (mk_frame (pd.range 50)
          [(LStr "substrate", ColObj (repeat uniprot_id 50));
           (LStr "aa", ColObj (repeat (String aa EmptyString) 50));
           (LStr "site", ColObj (repeat position 50));
           (LStr "kinase_rank", ColInt (ranks 50));
           (LStr "kinase_name", ColObj (np.col a 1));
           (LStr "kinase_id", ColObj (np.col a 2));
           (LStr "kinexus_score", ColObj (np.col a 3));
           (LStr "kinexus_score_v2", ColObj (np.col a 6))]) /\
  (forall i, i < 50 ->
     nth_error (ranks 50) i = Some (Z.of_nat i + 1)%Z /\
     nth_error (np.col a 1) i = np.item a i 1 /\
     nth_error (np.col a 2) i = np.item a i 2 /\
     nth_error (np.col a 3) i = np.item a i 3 /\
     nth_error (np.col a 6) i = np.item a i 6).
Proof.
  intros Hr Hc Hlen. split.
  - now apply kinase_array_to_df_frame.
  - intros i Hi. split; [now apply ranks_nth|].
    repeat split; apply np_col_item; rewrite ?Hr, ?Hc; trivial; lia.
Qed.

(** The block of the end-to-end scenario, for site Y845 of P00533. *)
Lemma kinase_array_to_df_records_witness :
  kinase_array_to_df (NdArray scenario_block) "P00533" "Y845"
  = Ok (mk_frame (pd.range 50)
          [(LStr "substrate", ColObj (repeat "P00533" 50));
           (LStr "aa", ColObj (repeat "Y" 50));
           (LStr "site", ColObj (repeat "845" 50));
           (LStr "kinase_rank", ColInt (ranks 50));
           (LStr "kinase_name", ColObj (np.col scenario_block 1));
           (LStr "kinase_id", ColObj (np.col scenario_block 2));
           (LStr "kinexus_score", ColObj (np.col scenario_block 3));
           (LStr "kinexus_score_v2", ColObj (np.col scenario_block 6))]) /\
  (forall i, i < 50 ->
     nth_error (ranks 50) i = Some (Z.of_nat i + 1)%Z /\
     nth_error (np.col scenario_block 1) i = np.item scenario_block i 1 /\
     nth_error (np.col scenario_block 2) i = np.item scenario_block i 2 /\
     nth_error (np.col scenario_block 3) i = np.item scenario_block i 3 /\
     nth_error (np.col scenario_block 6) i = np.item scenario_block i 6).
Proof.
  apply (kinase_array_to_df_records scenario_block "P00533" "Y"%char "845");
    reflexivity.
Defined.

(** C2 as stated fails: on the block of the specification's own scenario,
    whose rows are [x, EGFR, K1, 950, 940, y, z], the [kinexus_score_v2] of
    every record is [z], the token of column 6, and not [940], the token of
    column 4. *)
Lemma kinase_array_to_df_score_v2_column :
  np.item scenario_block 0 4 = Some "940" /\
  np.item scenario_block 0 6 = Some "z" /\
  exists df,
    kinase_array_to_df (NdArray scenario_block) "P00533" "Y845" = Ok df /\
    pd.getitem df "kinexus_score_v2" = Ok (ColObj (repeat "z" 50)) /\
    pd.getitem df "kinexus_score_v2" <> Ok (ColObj (np.col scenario_block 4)).
Proof.
  split; [reflexivity|]. split; [reflexivity|].
  eexists. split; [vm_compute; reflexivity|].
  split; [reflexivity|]. intros H. vm_compute in H. discriminate H.
Qed.

(** An empty site label has no residue letter to take. *)
Lemma kinase_array_to_df_empty_site (a : np.ndarray) uniprot_id :
  np.nrows a = 50 -> np.ncols a = 7 ->
  kinase_array_to_df (NdArray a) uniprot_id EmptyString = Raise IndexError.
Proof.
  intros Hr Hc. destruct a as [r c l]. simpl in Hr, Hc. subst r c.
  reflexivity.
Qed.

(** The frame of an empty list has no column to drop. *)
Lemma kinase_array_to_df_empty_list uniprot_id phospho_site :
  kinase_array_to_df EmptyList uniprot_id phospho_site = Raise KeyError.
Proof. reflexivity. Qed.

(* ------------------------------------------------------------------------ *)
(** ** Actions and their traces *)

Lemma outcome_bind {A B} (m : IO A) (f : A -> IO B) :
  outcome (bind m f)
  = match outcome m with
    | Ok a => outcome (f a)
    | Raise e => Raise e
    end.
Proof.
  destruct m as [t [a|e]]; simpl; [|reflexivity].
  now destruct (f a).
Qed.

Lemma trace_bind {A B} (m : IO A) (f : A -> IO B) :
  trace (bind m f)
  = match outcome m with
    | Ok a => trace m ++ trace (f a)
    | Raise _ => trace m
    end.
Proof.
  destruct m as [t [a|e]]; simpl; [|reflexivity].
  now destruct (f a).
Qed.

Lemma bind_ret_l {A B} (a : A) (f : A -> IO B) : bind (ret a) f = f a.
Proof. unfold ret, bind. now destruct (f a). Qed.

Lemma bind_assoc {A B C} (m : IO A) (f : A -> IO B) (g : B -> IO C) :
  bind (bind m f) g = bind m (fun a => bind (f a) g).
Proof.
  destruct m as [t [a|e]]; simpl; [|reflexivity].
  destruct (f a) as [t' [b|e]]; simpl; [|reflexivity].
  destruct (g b) as [t'' r]. now rewrite app_assoc.
Qed.

Lemma csv_files_app t t' : csv_files (t ++ t') = csv_files t ++ csv_files t'.
Proof.
  induction t as [|ev t IH]; simpl; [reflexivity|].
  destruct ev; simpl; now rewrite IH.
Qed.

Lemma writes_nothing_bind {A B} (m : IO A) (f : A -> IO B) :
  writes_nothing m -> (forall a, writes_nothing (f a)) ->
  writes_nothing (bind m f).
Proof.
  unfold writes_nothing. intros Hm Hf. rewrite trace_bind.
  destruct (outcome m) as [a|e]; cbv iota; [|assumption].
  now rewrite csv_files_app, Hm, Hf.
Qed.

Lemma writes_nothing_lift {A} (r : result A) : writes_nothing (lift r).
Proof. reflexivity. Qed.

Lemma writes_nothing_ret {A} (a : A) : writes_nothing (ret a).
Proof. reflexivity. Qed.

Lemma modelled_bind {A B} (m : IO A) (f : A -> IO B) :
  modelled m -> (forall a, outcome m = Ok a -> modelled (f a)) ->
  modelled (bind m f).
Proof.
  unfold modelled. intros Hm Hf. rewrite outcome_bind.
  destruct (outcome m) as [a|e]; cbv iota; [now apply Hf | congruence].
Qed.

Lemma writes_nothing_emit ev :
  match ev with ToCsv _ _ => False | _ => True end -> writes_nothing (emit ev).
Proof. destruct ev; simpl; intros H; [reflexivity .. | contradiction]. Qed.

(* ------------------------------------------------------------------------ *)
(** ** The site extractor *)

(** A search page that is not served leaves [phospho_sites] unbound. *)
Lemma get_phospho_sites_unserved web uniprot_id base_url tag_class :
  status_code (web (base_url ++ uniprot_id)%string) <> 200%Z ->
  get_phospho_sites web uniprot_id base_url tag_class
  = ([HttpGet (base_url ++ uniprot_id)%string], Raise UnboundLocalError).
Proof.
  intros Hs. unfold get_phospho_sites, requests_get, emit, ret, lift, bind.
  destruct (Z.eqb_spec (status_code (web (base_url ++ uniprot_id)%string)) 200);
    [contradiction | reflexivity].
Qed.

Lemma get_phospho_sites_served web uniprot_id base_url tag_class :
  status_code (web (base_url ++ uniprot_id)%string) = 200%Z ->
  get_phospho_sites web uniprot_id base_url tag_class
  = ([HttpGet (base_url ++ uniprot_id)%string],
     Ok (find_all_td (web (base_url ++ uniprot_id)%string) tag_class)).
Proof.
  intros Hs. unfold get_phospho_sites, requests_get, emit, ret, lift, bind.
  now rewrite Hs.
Qed.

Lemma get_phospho_sites_writes_nothing web uniprot_id base_url tag_class :
  writes_nothing (get_phospho_sites web uniprot_id base_url tag_class).
Proof.
  destruct (Z.eq_dec (status_code (web (base_url ++ uniprot_id)%string)) 200)
    as [E|E].
  - now rewrite get_phospho_sites_served.
  - now rewrite get_phospho_sites_unserved.
Qed.

(** C3, on the code.  With a search page answered 404, [get_phospho_sites]
    does not return an empty list: it raises [UnboundLocalError] right after
    the request, and so does the whole run, before any file is written. *)
Theorem get_phospho_sites_404_raises :
  status_code (web_down (search_url "P00533")) = 404%Z /\
  get_phospho_sites web_down "P00533" phosphonet_base_url phos_site_class
  = ([HttpGet (search_url "P00533")], Raise UnboundLocalError) /\
  main web_down decimal_int (sample_args ["P00533"; "Q00000"])
  = ([HttpGet (search_url "P00533")], Raise UnboundLocalError).
Proof. repeat split. Qed.

(* ------------------------------------------------------------------------ *)
(** ** The main loop *)

Ltac quiet_step :=
  first
    [ apply writes_nothing_bind; [|intro]
    | apply writes_nothing_lift
    | apply writes_nothing_ret
    | apply writes_nothing_emit; exact I ].

Lemma get_kinases_writes_nothing web uniprot_id phospho_site base_url :
  writes_nothing (get_kinases web uniprot_id phospho_site base_url).
Proof.
  unfold get_kinases, requests_get, print.
  repeat quiet_step.
  destruct (status_code _ =? 200)%Z; repeat quiet_step.
Qed.

Lemma site_body_writes_nothing web args uniprot_id df idx site :
  writes_nothing (site_body web args uniprot_id df idx site).
Proof.
  unfold site_body, sleep_uniform, print.
  apply writes_nothing_bind; [apply get_kinases_writes_nothing | intro k].
  apply writes_nothing_bind; [apply writes_nothing_lift | intro kdf].
  apply writes_nothing_bind; [|intro acc].
  { destruct (pd.empty df); [quiet_step|].
    destruct (pd.concat df kdf); quiet_step. }
  repeat quiet_step.
  destruct (_ =? 0)%Z; repeat quiet_step.
Qed.

Lemma site_loop_writes_nothing web args uniprot_id sites : forall df idx,
  writes_nothing (site_loop web args uniprot_id df idx sites).
Proof.
  induction sites as [|site sites IH]; intros df idx; simpl.
  - apply writes_nothing_ret.
  - apply writes_nothing_bind; [apply site_body_writes_nothing|].
    intro; apply IH.
Qed.

(** The file of a protein is written last: a run of [protein_body] that
    raises has written nothing. *)
Lemma protein_body_failure_writes_nothing web py_int args uniprot_id e :
  outcome (protein_body web py_int args uniprot_id) = Raise e ->
  writes_nothing (protein_body web py_int args uniprot_id).
Proof.
  unfold protein_body, writes_nothing.
  pose proof (get_phospho_sites_writes_nothing web uniprot_id
                phosphonet_base_url phos_site_class) as Hg.
  unfold writes_nothing in Hg.
  rewrite outcome_bind, trace_bind.
  destruct (outcome (get_phospho_sites _ _ _ _)) as [sites|e1];
    [|intros _; exact Hg].
  pose proof (site_loop_writes_nothing web args uniprot_id sites
                pd.empty_frame 0) as Hl.
  unfold writes_nothing in Hl.
  rewrite outcome_bind, trace_bind, csv_files_app, Hg.
  destruct (outcome (site_loop _ _ _ _ _ _)) as [df|e2];
    [|intros _; exact Hl].
  rewrite outcome_bind, trace_bind, csv_files_app, Hl.
  unfold lift at 1 2 3. simpl outcome at 1 2. simpl trace at 1.
  destruct (typecast_phos_df py_int df) as [df'|e3]; [|reflexivity].
  discriminate.
Qed.

Lemma main_loop_app web py_int args done rest :
  main_loop web py_int args (done ++ rest)
  = bind (main_loop web py_int args done)
         (fun _ => main_loop web py_int args rest).
Proof.
  induction done as [|u done IH]; cbn [app main_loop].
  - now rewrite bind_ret_l.
  - now rewrite IH, bind_assoc.
Qed.

(** C6, as the code has it.  The loop has no exception handler: when the
    proteins before [uniprot_id] went through and the processing of
    [uniprot_id] raises, the run ends there with that exception.  Nothing
    is done for the identifiers that follow, and the files left behind are
    those of the proteins before: none for the failing protein, none for
    any later one. *)
Theorem main_loop_failure_ends_run web py_int args done uniprot_id rest e :
  outcome (main_loop web py_int args done) = Ok tt ->
  outcome (protein_body web py_int args uniprot_id) = Raise e ->
  outcome (main_loop web py_int args (done ++ uniprot_id :: rest)) = Raise e /\
  trace (main_loop web py_int args (done ++ uniprot_id :: rest))
  = trace (main_loop web py_int args done)
    ++ trace (protein_body web py_int args uniprot_id) /\
  csv_files (trace (main_loop web py_int args (done ++ uniprot_id :: rest)))
  = csv_files (trace (main_loop web py_int args done)).
Proof.
  intros Hdone Hfail.
  assert (Ho : outcome (main_loop web py_int args (done ++ uniprot_id :: rest))
               = Raise e).
  { rewrite main_loop_app, outcome_bind, Hdone. simpl main_loop.
    now rewrite outcome_bind, Hfail. }
  assert (Ht : trace (main_loop web py_int args (done ++ uniprot_id :: rest))
               = trace (main_loop web py_int args done)
                 ++ trace (protein_body web py_int args uniprot_id)).
  { rewrite main_loop_app, trace_bind, Hdone. simpl main_loop.
    now rewrite trace_bind, Hfail. }
  repeat split; trivial.
  rewrite Ht, csv_files_app.
  rewrite (protein_body_failure_writes_nothing _ _ _ _ _ Hfail).
  apply app_nil_r.
Qed.

(** P00533 goes through, Q00000 fails, the second P00533 is not reached. *)
Lemma main_loop_failure_ends_run_witness :
  outcome (main_loop web_two decimal_int (sample_args [])
             (["P00533"] ++ "Q00000" :: ["P00533"]))
  = Raise ValueError /\
  trace (main_loop web_two decimal_int (sample_args [])
           (["P00533"] ++ "Q00000" :: ["P00533"]))
  = trace (main_loop web_two decimal_int (sample_args []) ["P00533"])
    ++ trace (protein_body web_two decimal_int (sample_args []) "Q00000") /\
  csv_files (trace (main_loop web_two decimal_int (sample_args [])
                      (["P00533"] ++ "Q00000" :: ["P00533"])))
  = csv_files (trace (main_loop web_two decimal_int (sample_args [])
                        ["P00533"])).
Proof.
  apply (main_loop_failure_ends_run web_two decimal_int (sample_args [])
           ["P00533"] "Q00000" ["P00533"] ValueError).
  - vm_compute. reflexivity.
  - vm_compute. reflexivity.
Defined.

(** C6 as stated fails: P00533 alone is processed and its file written, but
    behind Q00000, whose prediction page has lost the marker, it is never
    reached: the run stops on the [ValueError] of Q00000 after three
    effects, none of them a request for P00533, and no file exists. *)
Lemma main_stops_at_first_failure :
  outcome (main web_two decimal_int (sample_args ["P00533"])) = Ok tt /\
  map fst (csv_files (trace (main web_two decimal_int
                               (sample_args ["P00533"]))))
  = ["./P00533_phos_kinexus.csv"] /\
  main web_two decimal_int (sample_args ["Q00000"; "P00533"])
  = ([HttpGet (search_url "Q00000");
      HttpGet (kinase_url "Q00000" "S1");
      Print ("querying kinases for: " ++ kinase_url "Q00000" "S1")%string],
     Raise ValueError) /\
  csv_files (trace (main web_two decimal_int
                      (sample_args ["Q00000"; "P00533"]))) = [].
Proof.
  split; [vm_compute; reflexivity|].
  split; [vm_compute; reflexivity|].
  split; vm_compute; reflexivity.
Qed.

(** A turn of the loop whose prediction page is not served raises
    [KeyError] right after the request. *)
Lemma site_body_unserved web args uniprot_id df idx site :
  status_code (web (kinase_url uniprot_id site)) <> 200%Z ->
  site_body web args uniprot_id df idx site
  = ([HttpGet (kinase_url uniprot_id site)], Raise KeyError).
Proof.
  intros Hs. unfold site_body.
  rewrite (get_kinases_unserved web uniprot_id site phosphonet_kinase_url _
             (phosphonet_kinase_url_format uniprot_id site) Hs).
  reflexivity.
Qed.

(** A protein whose search page lists no site raises [KeyError] right after
    the request. *)
Lemma protein_body_no_sites web py_int args uniprot_id :
  status_code (web (search_url uniprot_id)) = 200%Z ->
  find_all_td (web (search_url uniprot_id)) phos_site_class = [] ->
  protein_body web py_int args uniprot_id
  = ([HttpGet (search_url uniprot_id)], Raise KeyError).
Proof.
  intros Hs Hnone. unfold protein_body.
  rewrite (get_phospho_sites_served web uniprot_id phosphonet_base_url
             phos_site_class Hs).
  fold (search_url uniprot_id). rewrite Hnone. reflexivity.
Qed.

(** C4, on the code.  With the prediction page of the first site answered
    404, [get_kinases] returns the empty list, and the loop hands it to
    [kinase_array_to_df], which raises [KeyError] on it: the site is not
    skipped, the run ends there, the second site is never queried and no
    file is written. *)
Theorem main_unserved_site_raises :
  status_code (web_site_down (kinase_url "P00533" "Y845")) = 404%Z /\
  get_kinases web_site_down "P00533" "Y845" phosphonet_kinase_url
  = ([HttpGet (kinase_url "P00533" "Y845")], Ok EmptyList) /\
  kinase_array_to_df EmptyList "P00533" "Y845" = Raise KeyError /\
  main web_site_down decimal_int (sample_args ["P00533"])
  = ([HttpGet (search_url "P00533"); HttpGet (kinase_url "P00533" "Y845")],
     Raise KeyError).
Proof. repeat split. Qed.

(** C7, on the code.  With a search page that lists no site,
    [get_phospho_sites] returns the empty list, the loop over the sites
    leaves the frame as [pd.DataFrame()] made it, without any column, and
    [typecast_phos_df] raises [KeyError] on its first column access: the
    run ends there and no file is written for the protein. *)
Theorem main_no_sites_raises :
  get_phospho_sites web_no_sites "P00533" phosphonet_base_url phos_site_class
  = ([HttpGet (search_url "P00533")], Ok []) /\
  typecast_phos_df decimal_int pd.empty_frame = Raise KeyError /\
  main web_no_sites decimal_int (sample_args ["P00533"])
  = ([HttpGet (search_url "P00533")], Raise KeyError).
Proof. repeat split. Qed.

(* ------------------------------------------------------------------------ *)
(** ** The run stays within the model

    [NotModelled] stands for the one thing [pd.concat] is not modelled to
    do.  The frames the loop concatenates are all frames of kinase records,
    so the script never gets there. *)

Lemma rbind_ok {A B} (m : result A) (f : A -> result B) b :
  rbind m f = Ok b -> exists a, m = Ok a /\ f a = Ok b.
Proof. destruct m as [a|e]; simpl; [eauto | discriminate]. Qed.

Lemma py_format_unfold c d tpl args :
  py.format (String c (String d tpl)) args
  = if Ascii.eqb c "{"%char && Ascii.eqb d "}"%char then
      match args with
      | a :: args' =>
          (r <- py.format tpl args' ;; Ok (a ++ r)%string)%result
      | [] => Raise IndexError
      end
    else (r <- py.format (String d tpl) args ;; Ok (String c r))%result.
Proof. reflexivity. Qed.

Lemma py_format_raises tpl :
  (forall args e, py.format tpl args = Raise e -> e = IndexError) /\
  (forall c args e,
     py.format (String c tpl) args = Raise e -> e = IndexError).
Proof.
  induction tpl as [|d tpl [IH1 IH2]].
  - split; [discriminate|]. intros c args e; simpl. discriminate.
  - split; [exact (IH2 d)|].
    intros c args e. rewrite py_format_unfold.
    destruct (Ascii.eqb c "{"%char && Ascii.eqb d "}"%char).
    + destruct args as [|a args]; [intros H; now inversion H|].
      destruct (py.format tpl args) as [r|e'] eqn:E; simpl;
        [discriminate|].
      intros H; inversion H; subst. eapply IH1, E.
    + destruct (py.format (String d tpl) args) as [r|e'] eqn:E; simpl;
        [discriminate|].
      intros H; inversion H; subst. eapply IH2, E.
Qed.

Lemma py_index_raises l x e : py.index l x = Raise e -> e = ValueError.
Proof.
  induction l as [|y l IH]; simpl; [intros H; now inversion H|].
  destruct (String.eqb y x); [discriminate|].
  destruct (py.index l x) as [i|e']; simpl; [discriminate|].
  intros H; inversion H; subst. now apply IH.
Qed.

(** [get_kinases] returns the empty list or an array of shape 50 x 7, and
    raises nothing but [IndexError] and [ValueError]. *)
Lemma get_kinases_outcome web uniprot_id phospho_site base_url :
  match outcome (get_kinases web uniprot_id phospho_site base_url) with
  | Ok k => k = EmptyList \/ exists l, k = NdArray (np.mk_ndarray 50 7 l)
  | Raise e => e = IndexError \/ e = ValueError
  end.
Proof.
  destruct (py.format base_url [uniprot_id; phospho_site]) as [url|e] eqn:Hf.
  - destruct (Z.eq_dec (status_code (web url)) 200) as [Hs|Hs].
    + rewrite (get_kinases_served _ _ _ _ _ Hf Hs). unfold outcome. cbn [snd].
      destruct (py.index _ _) as [k|e] eqn:Hi; cbn [rbind].
      * unfold np.reshape. destruct (Nat.eqb _ _); cbn [rbind]; eauto.
      * right. eapply py_index_raises, Hi.
    + rewrite (get_kinases_unserved _ _ _ _ _ Hf Hs). now left.
  - rewrite (get_kinases_bad_template _ _ _ _ _ Hf). simpl. left.
    eapply (proj1 (py_format_raises base_url)), Hf.
Qed.

(** On what [get_kinases] returns, the normalizer builds a frame of kinase
    records or raises [KeyError] or [IndexError]. *)
Lemma kinase_array_to_df_outcome k uniprot_id phospho_site :
  k = EmptyList \/ (exists l, k = NdArray (np.mk_ndarray 50 7 l)) ->
  match kinase_array_to_df k uniprot_id phospho_site with
  | Ok df => schema df = record_schema
  | Raise e => e = KeyError \/ e = IndexError
  end.
Proof.
  intros [->|[l ->]].
  - rewrite kinase_array_to_df_empty_list. now left.
  - destruct phospho_site as [|aa position].
    + rewrite kinase_array_to_df_empty_site by reflexivity. now right.
    + rewrite kinase_array_to_df_frame by reflexivity. reflexivity.
Qed.

Lemma concat_cols_schema cs : forall ds,
  schema (mk_frame [] cs) = schema (mk_frame [] ds) ->
  exists es, pd.concat_cols cs ds = Some es /\
             schema (mk_frame [] es) = schema (mk_frame [] cs).
Proof.
  unfold schema; cbn [columns].
  induction cs as [|[l c] cs IH]; intros [|[m d] ds] H; simpl in H;
    try discriminate.
  - now exists [].
  - inversion H as [[Hl Hk Hs]]. subst m.
    destruct (IH ds Hs) as (es & He & Hes).
    cbn [pd.concat_cols]. rewrite label_eqb_refl, He.
    destruct c, d; try discriminate; cbn [pd.append_col snd fst];
      eexists; (split; [reflexivity|]); simpl; now rewrite Hes.
Qed.

Lemma concat_schema a b :
  schema a = schema b ->
  exists df, pd.concat a b = Some df /\ schema df = schema a.
Proof.
  destruct a as [ia ca], b as [ib cb]. intros H.
  destruct (concat_cols_schema ca cb H) as (es & He & Hes).
  unfold pd.concat; cbn [columns index]. rewrite He. eauto.
Qed.

Lemma lookup_raises cs l e : pd.lookup cs l = Raise e -> e = KeyError.
Proof.
  induction cs as [|[m c] cs IH]; simpl; [intros H; now inversion H|].
  destruct (label_eqb m l); [discriminate | exact IH].
Qed.

Lemma cast_all_raises py_int l e :
  pd.cast_all py_int l = Raise e -> e = ValueError \/ e = OverflowError.
Proof.
  induction l as [|s l IH]; simpl; [discriminate|].
  unfold pd.int32_of_str at 1.
  destruct (py_int s) as [z|]; [|intros H; inversion H; now left].
  destruct ((pd.int32_min <=? z) && (z <=? pd.int32_max))%Z; simpl;
    [|intros H; inversion H; now right].
  destruct (pd.cast_all py_int l) as [r|e']; simpl; [discriminate|].
  intros H; inversion H; subst. now apply IH.
Qed.

Lemma update_column_raises l f df e :
  (forall c e', f c = Raise e' -> e' <> NotModelled) ->
  update_column l f df = Raise e -> e <> NotModelled.
Proof.
  intros Hf. unfold update_column, pd.getitem.
  destruct (pd.lookup (columns df) l) as [c|e'] eqn:E; simpl.
  - destruct (f c) as [c'|e'] eqn:F; simpl; [discriminate|].
    intros H; inversion H; subst. eapply Hf, F.
  - intros H; inversion H; subst.
    apply lookup_raises in E. now subst.
Qed.

Lemma astype_int32_raises py_int c e :
  pd.astype_int32 py_int c = Raise e -> e <> NotModelled.
Proof.
  destruct c as [l|l]; simpl; [|discriminate].
  destruct (pd.cast_all py_int l) as [r|e'] eqn:E; simpl; [discriminate|].
  intros H; inversion H; subst.
  destruct (cast_all_raises _ _ _ E); now subst.
Qed.

Lemma str_replace_raises c e :
  pd.str_replace ","%char ";"%char c = Raise e -> e <> NotModelled.
Proof. destruct c; simpl; [discriminate|]. intros H; now inversion H. Qed.

Lemma typecast_phos_df_raises py_int df e :
  typecast_phos_df py_int df = Raise e -> e <> NotModelled.
Proof.
  rewrite typecast_phos_df_steps.
  destruct (update_column "site" _ df) as [d1|e1] eqn:H1; simpl.
  2: { intros H; inversion H; subst.
       eapply update_column_raises, H1. apply astype_int32_raises. }
  destruct (update_column "kinase_name" _ d1) as [d2|e2] eqn:H2; simpl.
  2: { intros H; inversion H; subst.
       eapply update_column_raises, H2. apply str_replace_raises. }
  destruct (update_column "kinexus_score" _ d2) as [d3|e3] eqn:H3; simpl.
  2: { intros H; inversion H; subst.
       eapply update_column_raises, H3. apply astype_int32_raises. }
  apply update_column_raises, astype_int32_raises.
Qed.

(** The pacing at the end of a turn: it raises on a batch size of zero and
    hands over otherwise. *)
Lemma pace_outcome {A} low high x b low' high' msg (k : IO A) :
  outcome
    (sleep_uniform low high ;;;
     r <- lift (py.mod_ x b) ;;
     (if (r =? 0)%Z then print msg ;;; sleep_uniform low' high' else ret tt) ;;;
     k)%io
  = match py.mod_ x b with
    | Ok _ => outcome k
    | Raise e => Raise e
    end.
Proof.
  rewrite outcome_bind. cbn [outcome sleep_uniform emit snd].
  rewrite outcome_bind. cbn [outcome lift snd].
  destruct (py.mod_ x b) as [r|e]; [|reflexivity].
  rewrite outcome_bind.
  destruct (r =? 0)%Z; reflexivity.
Qed.

Lemma py_mod_raises x b e : py.mod_ x b = Raise e -> e = ZeroDivisionError.
Proof.
  unfold py.mod_. destruct (b =? 0)%Z; [|discriminate].
  intros H; now inversion H.
Qed.

(** One turn of the loop over the sites: from an accumulator it makes a
    frame of kinase records, unless it raises a Python exception. *)
Lemma site_body_accumulator web args uniprot_id df idx site :
  accumulator df ->
  match outcome (site_body web args uniprot_id df idx site) with
  | Ok df' => schema df' = record_schema
  | Raise e => e <> NotModelled
  end.
Proof.
  intros Hacc. unfold site_body. rewrite outcome_bind.
  pose proof (get_kinases_outcome web uniprot_id site phosphonet_kinase_url)
    as Hk.
  destruct (outcome (get_kinases _ _ _ _)) as [k|e];
    [|destruct Hk; subst; discriminate].
  rewrite outcome_bind. cbn [outcome lift snd].
  pose proof (kinase_array_to_df_outcome k uniprot_id site Hk) as Hdf.
  destruct (kinase_array_to_df k uniprot_id site) as [kdf|e];
    [|destruct Hdf; subst; discriminate].
  rewrite outcome_bind.
  assert (Hnext : forall acc, schema acc = record_schema ->
            match outcome
                    (sleep_uniform (sil args) (sih args) ;;;
                     r <- lift (py.mod_ (Z.of_nat idx + 1) (bs args)) ;;
                     (if (r =? 0)%Z
                      then print "wating between batches..." ;;;
                           sleep_uniform (sbl args) (sbh args)
                      else ret tt) ;;;
                     ret acc)%io
            with
            | Ok df' => schema df' = record_schema
            | Raise e => e <> NotModelled
            end).
  { intros acc Hs. rewrite pace_outcome.
    destruct (py.mod_ _ _) as [r|e] eqn:E; [exact Hs|].
    apply py_mod_raises in E. now subst. }
  destruct (pd.empty df) eqn:Hempty.
  - cbn [outcome ret snd]. now apply Hnext.
  - destruct Hacc as [Hacc|Hacc]; [congruence|].
    destruct (concat_schema df kdf) as (df2 & Hc & Hs2); [congruence|].
    rewrite Hc. cbn [outcome ret snd]. apply Hnext. congruence.
Qed.

Lemma site_loop_modelled web args uniprot_id sites : forall df idx,
  accumulator df ->
  modelled (site_loop web args uniprot_id df idx sites).
Proof.
  induction sites as [|site sites IH]; intros df idx Hacc;
    cbn [site_loop].
  - discriminate.
  - pose proof (site_body_accumulator web args uniprot_id df idx site Hacc)
      as Hb.
    apply modelled_bind.
    + unfold modelled. destruct (outcome (site_body _ _ _ _ _ _));
        [discriminate | congruence].
    + intros df' Hdf'. rewrite Hdf' in Hb. apply IH. now right.
Qed.

Lemma protein_body_modelled web py_int args uniprot_id :
  modelled (protein_body web py_int args uniprot_id).
Proof.
  unfold protein_body. apply modelled_bind.
  - unfold modelled.
    destruct (Z.eq_dec
                (status_code (web (phosphonet_base_url ++ uniprot_id)%string))
                200) as [E|E].
    + now rewrite get_phospho_sites_served.
    + now rewrite get_phospho_sites_unserved.
  - intros sites _. apply modelled_bind.
    + apply site_loop_modelled. now left.
    + intros df _. apply modelled_bind.
      * unfold modelled, lift, outcome; cbn [snd].
        destruct (typecast_phos_df py_int df) as [df'|e] eqn:E;
          [discriminate|].
        apply typecast_phos_df_raises in E. congruence.
      * intros df' _. discriminate.
Qed.

(** No run of the script leaves the model. *)
Lemma main_loop_modelled web py_int args uniprot_ids :
  modelled (main_loop web py_int args uniprot_ids).
Proof.
  induction uniprot_ids as [|u rest IH]; cbn [main_loop].
  - discriminate.
  - apply modelled_bind; [apply protein_body_modelled | intros _ _; exact IH].
Qed.

(* ------------------------------------------------------------------------ *)
(** ** More on the kinase block extractor *)


Lemma py_index_first before x rest :
  ~ In x before -> py.index (before ++ x :: rest) x = Ok (length before).
Proof.
  induction before as [|y l IH]; simpl; intros H.
  - now rewrite String.eqb_refl.
  - destruct (String.eqb_spec y x) as [E|E]; [exfalso; auto|].
    rewrite IH; [reflexivity | tauto].
Qed.

Lemma slice_middle {A} (before block rest : list A) :
  py.slice (before ++ block ++ rest) (length before)
           (length block + length before) = block.
Proof.
  unfold py.slice. rewrite skipn_app, skipn_all, Nat.sub_diag. simpl.
  replace (length block + length before - length before) with (length block)
    by lia.
  rewrite firstn_app, firstn_all, Nat.sub_diag. simpl. apply app_nil_r.
Qed.



(** X2.  Only the 350 tokens from the first marker on count: whatever
    stands before the first marker and whatever follows the 349 tokens
    after it, [get_kinases] returns the marker and those 349 tokens. *)
Theorem get_kinases_ignores_surroundings
  web uniprot_id phospho_site base_url url before block rest :
  py.format base_url [uniprot_id; phospho_site] = Ok url ->
  status_code (web url) = 200%Z ->
  stripped_strings (web url)
  = before ++ (kinase_begin_string :: block) ++ rest ->
  ~ In kinase_begin_string before ->
  length block = 349 ->
  outcome (get_kinases web uniprot_id phospho_site base_url)
  = Ok (NdArray (np.mk_ndarray 50 7 (kinase_begin_string :: block))).
Proof.
  intros Hf Hs Hpage Hbefore Hlen.
  rewrite (get_kinases_served _ _ _ _ _ Hf Hs). unfold outcome. cbn [snd].
  rewrite Hpage. cbn [app].
  rewrite (py_index_first _ _ _ Hbefore). cbn [rbind].
  change (before ++ kinase_begin_string :: block ++ rest)
    with (before ++ (kinase_begin_string :: block) ++ rest).
  replace 350 with (length (kinase_begin_string :: block))
    by (simpl; lia).
  rewrite slice_middle. unfold np.reshape.
  replace (length (kinase_begin_string :: block)) with (50 * 7)
    by (simpl; lia).
  now rewrite Nat.eqb_refl.
Qed.

(** The sample page: a heading before the block, a footer after it. *)
Lemma get_kinases_ignores_surroundings_witness :
  outcome (get_kinases web_sample "P00533" "Y845" phosphonet_kinase_url)
  = Ok (NdArray (np.mk_ndarray 50 7 (kinase_begin_string :: tl sample_block))).
Proof.
  apply (get_kinases_ignores_surroundings web_sample "P00533" "Y845"
           phosphonet_kinase_url (kinase_url "P00533" "Y845")
           ["PhosphoNET"] (tl sample_block) ["Kinexus"]).
  - reflexivity.
  - reflexivity.
  - reflexivity.
  - simpl. intros [H|[]]; discriminate H.
  - reflexivity.
Defined.

(** X3.  Whenever [get_kinases] returns an array, the page was served, the
    array has shape 50 x 7 and holds exactly 350 tokens: the marker first,
    then the 349 tokens that follow it on the page, none missing and none
    added. *)
Theorem get_kinases_array_invariant
  web uniprot_id phospho_site base_url a :
  outcome (get_kinases web uniprot_id phospho_site base_url) = Ok (NdArray a) ->
  np.nrows a = 50 /\ np.ncols a = 7 /\ length (np.flat a) = 350 /\
  nth_error (np.flat a) 0 = Some kinase_begin_string /\
  exists url start_index,
    py.format base_url [uniprot_id; phospho_site] = Ok url /\
    status_code (web url) = 200%Z /\
    py.index (stripped_strings (web url)) kinase_begin_string
      = Ok start_index /\
    np.flat a
    = py.slice (stripped_strings (web url)) start_index (350 + start_index).
Proof.
  destruct (py.format base_url [uniprot_id; phospho_site]) as [url|e] eqn:Hf.
  2: { rewrite (get_kinases_bad_template _ _ _ _ _ Hf). discriminate. }
  destruct (Z.eq_dec (status_code (web url)) 200) as [Hs|Hs].
  2: { rewrite (get_kinases_unserved _ _ _ _ _ Hf Hs). discriminate. }
  rewrite (get_kinases_served _ _ _ _ _ Hf Hs). unfold outcome. cbn [snd].
  destruct (py.index _ _) as [k|e] eqn:Hi; cbn [rbind]; [|discriminate].
  unfold np.reshape.
  destruct (Nat.eqb_spec
              (length (py.slice (stripped_strings (web url)) k (350 + k)))
              (50 * 7)) as [E|E]; cbn [rbind]; [|discriminate].
  intros H. inversion H; subst a. cbn [np.nrows np.ncols np.flat].
  repeat split; trivial.
  - rewrite slice_nth_error by lia. rewrite Nat.add_0_r.
    now apply py_index_nth.
  - exists url, k. now repeat split.
Qed.

(** The array of the sample page. *)
Lemma get_kinases_array_invariant_witness :
  np.nrows (np.mk_ndarray 50 7 sample_block) = 50 /\
  np.ncols (np.mk_ndarray 50 7 sample_block) = 7 /\
  length (np.flat (np.mk_ndarray 50 7 sample_block)) = 350 /\
  nth_error (np.flat (np.mk_ndarray 50 7 sample_block)) 0
    = Some kinase_begin_string /\
  exists url start_index,
    py.format phosphonet_kinase_url ["P00533"; "Y845"] = Ok url /\
    status_code (web_sample url) = 200%Z /\
    py.index (stripped_strings (web_sample url)) kinase_begin_string
      = Ok start_index /\
    np.flat (np.mk_ndarray 50 7 sample_block)
    = py.slice (stripped_strings (web_sample url)) start_index
               (350 + start_index).
Proof.
  apply (get_kinases_array_invariant web_sample "P00533" "Y845"
           phosphonet_kinase_url (np.mk_ndarray 50 7 sample_block)).
  vm_compute. reflexivity.
Defined.

(* ------------------------------------------------------------------------ *)
(** ** More on the record normalizer *)

Lemma range_length n : length (pd.range n) = n.
Proof. unfold pd.range. now rewrite length_map, length_seq. Qed.

Lemma range_succ n : map (fun z => z + 1)%Z (pd.range n) = ranks n.
Proof.
  unfold pd.range, ranks. rewrite map_map, <- seq_shift, map_map.
  apply map_ext. intros i. lia.
Qed.

(** X4.  The normalizer does not depend on the number of kinases: from an
    array of any number [r] of rows and 7 columns it builds [r] records,
    ranked 1 to [r] in array order, with columns 1, 2, 3 and 6 of the array
    as [kinase_name], [kinase_id], [kinexus_score] and [kinexus_score_v2]. *)
Theorem kinase_array_to_df_any_rows
  (a : np.ndarray) (uniprot_id : string) (aa : ascii) (position : string) :
  np.ncols a = 7 ->
  kinase_array_to_df (NdArray a) uniprot_id (String aa position)
  = Ok (mk_frame (pd.range (np.nrows a))
          [(LStr "substrate", ColObj (repeat uniprot_id (np.nrows a)));
           (LStr "aa", ColObj (repeat (String aa EmptyString) (np.nrows a)));
           (LStr "site", ColObj (repeat position (np.nrows a)));
           (LStr "kinase_rank", ColInt (ranks (np.nrows a)));
           (LStr "kinase_name", ColObj (np.col a 1));
           (LStr "kinase_id", ColObj (np.col a 2));
           (LStr "kinexus_score", ColObj (np.col a 3));
           (LStr "kinexus_score_v2", ColObj (np.col a 6))]).
Proof.
  intros Hc. destruct a as [r c l]. simpl in Hc. subst c.
  unfold kinase_array_to_df, DataFrame_of, pd.of_ndarray.
  cbn [np.nrows np.ncols seq map].
  cbn -[np.col pd.range repeat ranks Z.add].
  now rewrite !range_length, range_succ.
Qed.

(** Two kinases instead of fifty. *)
Lemma kinase_array_to_df_any_rows_witness :
  kinase_array_to_df
    (NdArray (np.mk_ndarray 2 7
                ["Kinase 1:"; "EGFR"; "K1"; "950"; "y"; "z"; "940";
                 "Kinase 2:"; "Kin,aseA"; "K2"; "900"; "u"; "v"; "800"]))
    "P00533" "Y845"
  = Ok (mk_frame [0%Z; 1%Z]
          [(LStr "substrate", ColObj ["P00533"; "P00533"]);
           (LStr "aa", ColObj ["Y"; "Y"]);
           (LStr "site", ColObj ["845"; "845"]);
           (LStr "kinase_rank", ColInt [1%Z; 2%Z]);
           (LStr "kinase_name", ColObj ["EGFR"; "Kin,aseA"]);
           (LStr "kinase_id", ColObj ["K1"; "K2"]);
           (LStr "kinexus_score", ColObj ["950"; "900"]);
           (LStr "kinexus_score_v2", ColObj ["940"; "800"])]).
Proof.
  apply (kinase_array_to_df_any_rows
           (np.mk_ndarray 2 7
              ["Kinase 1:"; "EGFR"; "K1"; "950"; "y"; "z"; "940";
               "Kinase 2:"; "Kin,aseA"; "K2"; "900"; "u"; "v"; "800"])
           "P00533" "Y"%char "845").
  reflexivity.
Defined.

Lemma drop_keeps_from_6 (a : np.ndarray) n : forall s,
  6 <= s ->
  filter (fun p : label * column =>
            negb (existsb (label_eqb (fst p)) [LInt 0; LInt 4; LInt 5]))
         (map (fun j => (LInt j, ColObj (np.col a j))) (seq s n))
  = map (fun j => (LInt j, ColObj (np.col a j))) (seq s n).
Proof.
  induction n as [|n IH]; intros s Hs; [reflexivity|].
  cbn [seq map filter fst existsb label_eqb].
  destruct (Nat.eqb_spec s 0); [lia|].
  destruct (Nat.eqb_spec s 4); [lia|].
  destruct (Nat.eqb_spec s 5); [lia|].
  cbn [orb negb]. now rewrite IH by lia.
Qed.

Lemma no_name_among_integers (a : np.ndarray) name s n :
  existsb (fun p : label * column => label_eqb (fst p) (LStr name))
          (map (fun j => (LInt j, ColObj (np.col a j))) (seq s n))
  = false.
Proof.
  revert s. induction n as [|n IH]; intros s; [reflexivity|].
  cbn [seq map existsb fst label_eqb orb]. apply IH.
Qed.

(** X5.  An array with a number of columns other than 7 is refused: with
    fewer than 6 columns [drop] finds no column 5 and raises [KeyError];
    with 6 columns, or more than 7, the five new column names do not fit
    and the renaming raises [ValueError]. *)
Theorem kinase_array_to_df_bad_shape
  (a : np.ndarray) (uniprot_id phospho_site : string) :
  np.ncols a <> 7 ->
  kinase_array_to_df (NdArray a) uniprot_id phospho_site
  = Raise (if (np.ncols a <? 6)%nat then KeyError else ValueError).
Proof.
  intros Hc. destruct a as [r c l]. cbn [np.ncols] in *.
  destruct c as [|[|[|[|[|[|c]]]]]]; try reflexivity.
  unfold kinase_array_to_df, DataFrame_of, pd.of_ndarray, pd.drop,
    pd.has_label.
  cbn [np.ncols np.nrows columns index seq map forallb existsb fst
         label_eqb Nat.eqb orb andb filter negb rbind].
  rewrite drop_keeps_from_6 by lia.
  unfold pd.reset_index, pd.has_label.
  cbn [columns index existsb fst label_eqb orb].
  rewrite !no_name_among_integers. cbn [orb rbind].
  unfold pd.set_columns.
  cbn [columns length]. rewrite length_map, length_seq.
  destruct c as [|[|c]]; [reflexivity | lia | reflexivity].
Qed.

(** Six tokens per kinase instead of seven. *)
Lemma kinase_array_to_df_bad_shape_witness :
  kinase_array_to_df
    (NdArray (np.mk_ndarray 1 6 ["Kinase 1:"; "EGFR"; "K1"; "950"; "y"; "940"]))
    "P00533" "Y845"
  = Raise (if (6 <? 6)%nat then KeyError else ValueError).
Proof.
  apply (kinase_array_to_df_bad_shape
           (np.mk_ndarray 1 6 ["Kinase 1:"; "EGFR"; "K1"; "950"; "y"; "940"])
           "P00533" "Y845").
  simpl. lia.
Defined.

(** X6.  An empty site label has no residue letter: on an array of 7
    columns the normalizer raises [IndexError], whatever the rows. *)
Theorem kinase_array_to_df_no_residue (a : np.ndarray) (uniprot_id : string) :
  np.ncols a = 7 ->
  kinase_array_to_df (NdArray a) uniprot_id EmptyString = Raise IndexError.
Proof.
  intros Hc. destruct a as [r c l]. simpl in Hc. subst c. reflexivity.
Qed.

(** The scenario block with an empty site label. *)
Lemma kinase_array_to_df_no_residue_witness :
  kinase_array_to_df (NdArray scenario_block) "P00533" EmptyString
  = Raise IndexError.
Proof.
  apply (kinase_array_to_df_no_residue scenario_block "P00533").
  reflexivity.
Defined.

(* ------------------------------------------------------------------------ *)
(** ** More on the table assembler *)









(* ------------------------------------------------------------------------ *)
(** ** More on the main loop *)

(** The end of a turn that goes through: the frame is taken or appended,
    the batch size is not zero, and the pauses are those of [site_events]. *)
Lemma accumulate_and_pace args idx df kdf df' :
  outcome
    (phospho_site_df <-
       (if pd.empty df then ret kdf
        else match pd.concat df kdf with
             | Some df0 => ret df0
             | None => lift (Raise NotModelled)
             end) ;;
     sleep_uniform (sil args) (sih args) ;;;
     r <- lift (py.mod_ (Z.of_nat idx + 1) (bs args)) ;;
     (if (r =? 0)%Z
      then print "wating between batches..." ;;;
           sleep_uniform (sbl args) (sbh args)
      else ret tt) ;;;
     ret phospho_site_df)%io = Ok df' ->
  (if pd.empty df then df' = kdf else pd.concat df kdf = Some df') /\
  bs args <> 0%Z /\
  trace
    (phospho_site_df <-
       (if pd.empty df then ret kdf
        else match pd.concat df kdf with
             | Some df0 => ret df0
             | None => lift (Raise NotModelled)
             end) ;;
     sleep_uniform (sil args) (sih args) ;;;
     r <- lift (py.mod_ (Z.of_nat idx + 1) (bs args)) ;;
     (if (r =? 0)%Z
      then print "wating between batches..." ;;;
           sleep_uniform (sbl args) (sbh args)
      else ret tt) ;;;
     ret phospho_site_df)%io
  = Sleep (sil args) (sih args)
    :: (if ((Z.of_nat idx + 1) mod bs args =? 0)%Z
        then [Print batch_message; Sleep (sbl args) (sbh args)]
        else []).
Proof.
  unfold py.mod_, sleep_uniform, print, emit, lift, ret.
  destruct (Z.eqb_spec (bs args) 0) as [Hb|Hb].
  - destruct (pd.empty df); [|destruct (pd.concat df kdf)];
      cbn; discriminate.
  - destruct (pd.empty df); [|destruct (pd.concat df kdf)]; cbn;
      try discriminate;
      destruct ((Z.of_nat idx + 1) mod bs args =? 0)%Z; cbn;
      intros H; inversion H; now repeat split.
Qed.

Lemma site_body_success web args uniprot_id df idx site df' :
  outcome (site_body web args uniprot_id df idx site) = Ok df' ->
  exists a kdf,
    outcome (get_kinases web uniprot_id site phosphonet_kinase_url)
      = Ok (NdArray a) /\
    kinase_array_to_df (NdArray a) uniprot_id site = Ok kdf /\
    (if pd.empty df then df' = kdf else pd.concat df kdf = Some df') /\
    bs args <> 0%Z /\
    trace (site_body web args uniprot_id df idx site)
    = site_events args uniprot_id idx site.
Proof.
  unfold site_body. rewrite outcome_bind, trace_bind.
  destruct (Z.eq_dec (status_code (web (kinase_url uniprot_id site))) 200)
    as [Hs|Hs].
  2: { rewrite (get_kinases_unserved web uniprot_id site phosphonet_kinase_url
                  _ (phosphonet_kinase_url_format uniprot_id site) Hs).
       cbn [outcome snd]. rewrite outcome_bind. discriminate. }
  rewrite (get_kinases_served web uniprot_id site phosphonet_kinase_url
             _ (phosphonet_kinase_url_format uniprot_id site) Hs).
  cbn [outcome trace fst snd].
  destruct (py.index _ _) as [k|e]; cbn [rbind]; [|discriminate].
  destruct (np.reshape _ _ _) as [a|e]; cbn [rbind]; [|discriminate].
  rewrite outcome_bind, trace_bind. cbn [outcome trace lift fst snd].
  destruct (kinase_array_to_df (NdArray a) uniprot_id site) as [kdf|e] eqn:Hdf;
    [|discriminate].
  intros H. destruct (accumulate_and_pace _ _ _ _ _ H) as (Hacc & Hb & Ht).
  exists a, kdf. repeat split; trivial.
  rewrite Ht. reflexivity.
Qed.

Lemma bind_ext {A B} (m : IO A) (f g : A -> IO B) :
  (forall a, f a = g a) -> bind m f = bind m g.
Proof.
  intros H. destruct m as [t [a|e]]; simpl; [|reflexivity]. now rewrite H.
Qed.

Lemma site_loop_trace_from web args uniprot_id sites : forall df idx df',
  outcome (site_loop web args uniprot_id df idx sites) = Ok df' ->
  trace (site_loop web args uniprot_id df idx sites)
  = loop_events args uniprot_id idx sites.
Proof.
  induction sites as [|site sites IH]; intros df idx df';
    cbn [site_loop loop_events]; [reflexivity|].
  rewrite outcome_bind, trace_bind.
  destruct (outcome (site_body web args uniprot_id df idx site))
    as [df1|e] eqn:Hb; [|discriminate].
  intros H.
  destruct (site_body_success _ _ _ _ _ _ _ Hb) as (a & kdf & _ & _ & _ & _ & Ht).
  rewrite Ht. f_equal. eapply IH, H.
Qed.

Lemma site_loop_app web args uniprot_id pre post : forall df idx,
  site_loop web args uniprot_id df idx (pre ++ post)
  = bind (site_loop web args uniprot_id df idx pre)
         (fun d => site_loop web args uniprot_id d (idx + length pre) post).
Proof.
  induction pre as [|s pre IH]; intros df idx; cbn [app site_loop length].
  - now rewrite bind_ret_l, Nat.add_0_r.
  - rewrite bind_assoc. apply bind_ext. intros d.
    rewrite IH. now rewrite Nat.add_succ_r.
Qed.

Lemma records_frame_concat uniprot_id done blocks done' blocks' :
  pd.concat (records_frame uniprot_id done blocks)
            (records_frame uniprot_id done' blocks')
  = Some (records_frame uniprot_id (done ++ done') (blocks ++ blocks')).
Proof.
  unfold pd.concat, records_frame. cbn [columns index].
  cbn -[flat_map]. now rewrite !flat_map_app.
Qed.

Lemma records_frame_rows uniprot_id sites blocks :
  length (index (records_frame uniprot_id sites blocks)) = 50 * length sites.
Proof.
  unfold records_frame. cbn [index].
  induction sites as [|s sites IH]; [reflexivity|].
  cbn [flat_map length]. rewrite length_app, range_length, IH. lia.
Qed.

Lemma records_frame_not_empty uniprot_id sites blocks :
  sites <> [] -> pd.empty (records_frame uniprot_id sites blocks) = false.
Proof.
  intros H. unfold pd.empty. rewrite records_frame_rows.
  destruct sites as [|s sites]; [contradiction|]. reflexivity.
Qed.

Lemma records_frame_single a uniprot_id site kdf :
  np.nrows a = 50 -> np.ncols a = 7 ->
  kinase_array_to_df (NdArray a) uniprot_id site = Ok kdf ->
  kdf = records_frame uniprot_id [site] [a].
Proof.
  intros Hr Hc. destruct site as [|c position].
  - now rewrite kinase_array_to_df_empty_site.
  - rewrite kinase_array_to_df_frame by assumption.
    intros H; inversion H. unfold records_frame.
    cbn [flat_map residue py.str_tail]. now rewrite !app_nil_r.
Qed.

Lemma get_kinases_array_shape web uniprot_id site base_url a :
  outcome (get_kinases web uniprot_id site base_url) = Ok (NdArray a) ->
  np.nrows a = 50 /\ np.ncols a = 7.
Proof.
  intros H. pose proof (get_kinases_outcome web uniprot_id site base_url) as Hk.
  rewrite H in Hk. destruct Hk as [Hk|[l Hk]]; [discriminate|].
  inversion Hk; subst. now split.
Qed.

(** The loop over the sites, from any point on: it fetches a block per
    site and stacks the records below those it has. *)
Lemma site_loop_table_from web args uniprot_id rest :
  forall done blocks df idx df',
  accumulated uniprot_id done blocks df ->
  outcome (site_loop web args uniprot_id df idx rest) = Ok df' ->
  exists blocks',
    Forall2 (fun site a =>
               outcome (get_kinases web uniprot_id site phosphonet_kinase_url)
               = Ok (NdArray a)) rest blocks' /\
    accumulated uniprot_id (done ++ rest) (blocks ++ blocks') df' /\
    (rest <> [] -> bs args <> 0%Z).
Proof.
  induction rest as [|site rest IH]; intros done blocks df idx df' Hacc;
    cbn [site_loop].
  - intros H. inversion H; subst df'. exists []. rewrite !app_nil_r.
    repeat split; [constructor | assumption | congruence].
  - rewrite outcome_bind.
    destruct (outcome (site_body web args uniprot_id df idx site))
      as [df1|e] eqn:Hb; [|discriminate].
    intros H.
    destruct (site_body_success _ _ _ _ _ _ _ Hb)
      as (a & kdf & Ha & Hkdf & Hdf1 & Hbs & _).
    destruct (get_kinases_array_shape _ _ _ _ _ Ha) as [Hr Hc].
    pose proof (records_frame_single _ _ _ _ Hr Hc Hkdf) as ->.
    assert (Hacc1 : accumulated uniprot_id (done ++ [site]) (blocks ++ [a])
                      df1).
    { right. split; [now destruct done|].
      destruct Hacc as [(-> & -> & ->)|[Hdone ->]].
      - cbn in Hdf1. now subst df1.
      - rewrite (records_frame_not_empty _ _ _ Hdone) in Hdf1.
        rewrite records_frame_concat in Hdf1. now inversion Hdf1. }
    destruct (IH _ _ _ _ _ Hacc1 H) as (blocks' & Hf & Hacc' & _).
    exists (a :: blocks').
    rewrite <- !app_assoc in Hacc'. cbn [app] in Hacc'.
    repeat split; [now constructor | assumption | trivial].
Qed.

(** X9.  The effects of a loop over the sites that goes through are, site
    after site in page order: one request for the prediction page of the
    site, the message, the pause between queries, and, when the count of
    sites done is a multiple of the batch size, the batch message and the
    longer pause.  Nothing else happens, and nothing is retried. *)
Theorem site_loop_trace web args uniprot_id sites df' :
  outcome (site_loop web args uniprot_id pd.empty_frame 0 sites) = Ok df' ->
  trace (site_loop web args uniprot_id pd.empty_frame 0 sites)
  = loop_events args uniprot_id 0 sites.
Proof. apply site_loop_trace_from. Qed.

(** X11.  A turn that raises ends the loop over the sites: the exception
    is that of the turn, and nothing is done, no request made, for the sites
    after it. *)
Theorem site_loop_failure_aborts web args uniprot_id df idx pre site post df1 e :
  outcome (site_loop web args uniprot_id df idx pre) = Ok df1 ->
  outcome (site_body web args uniprot_id df1 (idx + length pre) site)
  = Raise e ->
  outcome (site_loop web args uniprot_id df idx (pre ++ site :: post))
  = Raise e /\
  trace (site_loop web args uniprot_id df idx (pre ++ site :: post))
  = trace (site_loop web args uniprot_id df idx pre)
    ++ trace (site_body web args uniprot_id df1 (idx + length pre) site).
Proof.
  intros Hpre Hfail. rewrite site_loop_app, outcome_bind, trace_bind, Hpre.
  cbn [site_loop]. now rewrite outcome_bind, trace_bind, Hfail.
Qed.

(** X12.  The table a loop over the sites builds: one block was fetched
    per site, and the table is the records of the sites stacked in page
    order, fifty rows per site in rank order, the row labels restarting at
    0 with every site. *)
Theorem site_loop_table web args uniprot_id sites df' :
  sites <> [] ->
  outcome (site_loop web args uniprot_id pd.empty_frame 0 sites) = Ok df' ->
  exists blocks,
    Forall2 (fun site a =>
               outcome (get_kinases web uniprot_id site phosphonet_kinase_url)
               = Ok (NdArray a)) sites blocks /\
    df' = records_frame uniprot_id sites blocks /\
    length (pd.index df') = 50 * length sites.
Proof.
  intros Hsites H.
  destruct (site_loop_table_from web args uniprot_id sites [] []
              pd.empty_frame 0 df') as (blocks & Hf & Hacc & _);
    [now left | assumption |].
  cbn [app] in Hacc. destruct Hacc as [(-> & _)|[_ ->]]; [contradiction|].
  exists blocks. repeat split; trivial. apply records_frame_rows.
Qed.

(** What a protein that goes through has done. *)
Lemma protein_body_success_inv web py_int args uniprot_id :
  outcome (protein_body web py_int args uniprot_id) = Ok tt ->
  let sites := find_all_td (web (search_url uniprot_id)) phos_site_class in
  status_code (web (search_url uniprot_id)) = 200%Z /\
  sites <> [] /\
  bs args <> 0%Z /\
  exists blocks table,
    Forall2 (fun site a =>
               outcome (get_kinases web uniprot_id site phosphonet_kinase_url)
               = Ok (NdArray a)) sites blocks /\
    typecast_phos_df py_int (records_frame uniprot_id sites blocks)
    = Ok table /\
    trace (protein_body web py_int args uniprot_id)
    = HttpGet (search_url uniprot_id)
      :: loop_events args uniprot_id 0 sites
      ++ [ToCsv (csv_path args uniprot_id) table].
Proof.
  unfold protein_body. rewrite outcome_bind, trace_bind.
  destruct (Z.eq_dec (status_code (web (search_url uniprot_id))) 200)
    as [Hs|Hs].
  2: { rewrite (get_phospho_sites_unserved web uniprot_id phosphonet_base_url
                  phos_site_class Hs). discriminate. }
  rewrite (get_phospho_sites_served web uniprot_id phosphonet_base_url
             phos_site_class Hs).
  fold (search_url uniprot_id). cbn [outcome trace fst snd].
  set (sites := find_all_td (web (search_url uniprot_id)) phos_site_class).
  rewrite outcome_bind, trace_bind.
  destruct (outcome (site_loop web args uniprot_id pd.empty_frame 0 sites))
    as [df|e] eqn:Hloop; [|discriminate].
  rewrite (site_loop_trace_from _ _ _ _ _ _ _ Hloop).
  destruct (site_loop_table_from web args uniprot_id sites [] []
              pd.empty_frame 0 df) as (blocks & Hf & Hacc & Hbs);
    [now left | assumption |].
  cbn [app] in Hacc.
  rewrite outcome_bind, trace_bind. cbn [outcome trace lift fst snd].
  destruct Hacc as [(Hnil & _ & ->)|[Hsites ->]]; [discriminate|].
  destruct (typecast_phos_df py_int (records_frame uniprot_id sites blocks))
    as [table|e] eqn:Ht; [|discriminate].
  intros _. cbn zeta. repeat split; trivial; [now apply Hbs|].
  exists blocks, table. repeat split; trivial.
Qed.

Lemma site_events_quiet args uniprot_id idx site :
  csv_files (site_events args uniprot_id idx site) = [].
Proof.
  unfold site_events. rewrite csv_files_app.
  now destruct (_ =? 0)%Z.
Qed.

Lemma loop_events_quiet args uniprot_id sites : forall idx,
  csv_files (loop_events args uniprot_id idx sites) = [].
Proof.
  induction sites as [|s sites IH]; intros idx; cbn [loop_events];
    [reflexivity|].
  now rewrite csv_files_app, site_events_quiet, IH.
Qed.

Lemma typecast_phos_df_shape py_int df df' :
  typecast_phos_df py_int df = Ok df' ->
  pd.index df' = pd.index df /\ pd.labels df' = pd.labels df.
Proof.
  intros H.
  destruct (typecast_phos_df_inv _ _ _ H) as (d1 & d2 & d3 & H1 & H2 & H3 & H4).
  split.
  - rewrite (update_column_index _ _ _ _ H4), (update_column_index _ _ _ _ H3),
      (update_column_index _ _ _ _ H2).
    apply (update_column_index _ _ _ _ H1).
  - rewrite (update_column_labels _ _ _ _ H4),
      (update_column_labels _ _ _ _ H3), (update_column_labels _ _ _ _ H2).
    apply (update_column_labels _ _ _ _ H1).
Qed.

(** X15.  A protein that goes through: its search page listed at least
    one site, a block was fetched for every site, and exactly one file was
    written, as the last effect, under [outdir/<id>_phos_kinexus.csv]; it
    holds the cast of the stacked records, fifty rows per site, under the
    eight column names in their order. *)
Theorem protein_body_success web py_int args uniprot_id :
  outcome (protein_body web py_int args uniprot_id) = Ok tt ->
  let sites := find_all_td (web (search_url uniprot_id)) phos_site_class in
  sites <> [] /\
  exists blocks table,
    Forall2 (fun site a =>
               outcome (get_kinases web uniprot_id site phosphonet_kinase_url)
               = Ok (NdArray a)) sites blocks /\
    typecast_phos_df py_int (records_frame uniprot_id sites blocks)
    = Ok table /\
    csv_files (trace (protein_body web py_int args uniprot_id))
    = [(csv_path args uniprot_id, table)] /\
    last (trace (protein_body web py_int args uniprot_id))
         (HttpGet EmptyString)
    = ToCsv (csv_path args uniprot_id) table /\
    length (pd.index table) = 50 * length sites /\
    pd.labels table
    = [LStr "substrate"; LStr "aa"; LStr "site"; LStr "kinase_rank";
       LStr "kinase_name"; LStr "kinase_id"; LStr "kinexus_score";
       LStr "kinexus_score_v2"].
Proof.
  intros H. destruct (protein_body_success_inv _ _ _ _ H)
    as (_ & Hsites & _ & blocks & table & Hf & Ht & Htrace).
  split; [assumption|]. exists blocks, table.
  destruct (typecast_phos_df_shape _ _ _ Ht) as [Hi Hl].
  repeat split; trivial.
  - rewrite Htrace. cbn [csv_files]. rewrite csv_files_app, loop_events_quiet.
    reflexivity.
  - rewrite Htrace.
    change (HttpGet (search_url uniprot_id)
            :: loop_events args uniprot_id 0
                 (find_all_td (web (search_url uniprot_id)) phos_site_class)
               ++ [ToCsv (csv_path args uniprot_id) table])
      with ((HttpGet (search_url uniprot_id)
             :: loop_events args uniprot_id 0
                  (find_all_td (web (search_url uniprot_id)) phos_site_class))
            ++ [ToCsv (csv_path args uniprot_id) table]).
    apply last_last.
  - rewrite Hi. apply records_frame_rows.
Qed.

(** X14.  The files of a run are those of a prefix of the requested
    identifiers, one file per identifier, in request order, each named
    [outdir/<id>_phos_kinexus.csv]; the prefix is the whole list exactly
    when the run ends without an exception. *)
Theorem main_loop_files web py_int args uniprot_ids :
  exists k,
    k <= length uniprot_ids /\
    map fst (csv_files (trace (main_loop web py_int args uniprot_ids)))
    = map (csv_path args) (firstn k uniprot_ids) /\
    (outcome (main_loop web py_int args uniprot_ids) = Ok tt <->
     k = length uniprot_ids).
Proof.
  induction uniprot_ids as [|u rest (k & Hk & Hfiles & Hiff)];
    cbn [main_loop].
  - exists 0. repeat split; trivial.
  - rewrite outcome_bind, trace_bind.
    destruct (outcome (protein_body web py_int args u)) as [[]|e] eqn:Hu.
    + destruct (protein_body_success_inv _ _ _ _ Hu)
        as (_ & _ & _ & blocks & table & _ & _ & Htrace).
      exists (S k). cbn [length firstn map]. split; [lia|]. split.
      * rewrite csv_files_app, map_app, Hfiles, Htrace.
        cbn [csv_files]. rewrite csv_files_app, loop_events_quiet.
        reflexivity.
      * rewrite Hiff. split; lia.
    + exists 0. cbn [length firstn map]. split; [lia|]. split.
      * now rewrite (protein_body_failure_writes_nothing _ _ _ _ _ Hu).
      * split; [discriminate | lia].
Qed.

(** X13.  A batch size of zero: the test [(idx+1) % bs] raises
    [ZeroDivisionError] in the first turn that gets that far, so no protein
    goes through, the run raises as soon as there is an identifier, and no
    file is ever written. *)
Theorem main_loop_zero_batch web py_int args uniprot_ids :
  bs args = 0%Z ->
  csv_files (trace (main_loop web py_int args uniprot_ids)) = [] /\
  (uniprot_ids <> [] ->
   exists e, outcome (main_loop web py_int args uniprot_ids) = Raise e).
Proof.
  intros Hbs. destruct uniprot_ids as [|u rest]; cbn [main_loop].
  - split; [reflexivity | congruence].
  - rewrite outcome_bind, trace_bind.
    destruct (outcome (protein_body web py_int args u)) as [[]|e] eqn:Hu.
    + destruct (protein_body_success_inv _ _ _ _ Hu) as (_ & _ & Hnz & _).
      contradiction.
    + split; [|intros _; now exists e].
      apply (protein_body_failure_writes_nothing _ _ _ _ _ Hu).
Qed.

(** *** Counting the pauses *)

Lemma div_succ i c :
  (0 < c)%Z ->
  ((i + 1) / c = i / c + (if (i + 1) mod c =? 0 then 1 else 0))%Z.
Proof.
  intros Hc.
  pose proof (Z.div_mod i c ltac:(lia)) as Hi.
  pose proof (Z.mod_pos_bound i c Hc) as Hr.
  destruct (Z.eq_dec (i mod c + 1) c) as [E|E].
  - assert (Hm : ((i + 1) mod c = 0)%Z).
    { symmetry. apply (Z.mod_unique (i + 1) c (i / c + 1) 0); lia. }
    rewrite Hm. cbn [Z.eqb].
    symmetry. apply (Z.div_unique (i + 1) c (i / c + 1) 0); lia.
  - assert (Hm : ((i + 1) mod c = i mod c + 1)%Z).
    { symmetry. apply (Z.mod_unique (i + 1) c (i / c) (i mod c + 1)); lia. }
    rewrite Hm. destruct (Z.eqb_spec (i mod c + 1) 0) as [Z0|Z0]; [lia|].
    rewrite Z.add_0_r.
    symmetry. apply (Z.div_unique (i + 1) c (i / c) (i mod c + 1)); lia.
Qed.

Lemma mod_abs_zero a b :
  b <> 0%Z -> (a mod b =? 0)%Z = (a mod Z.abs b =? 0)%Z.
Proof.
  intros Hb.
  destruct (Z.eqb_spec (a mod b) 0) as [E|E];
    destruct (Z.eqb_spec (a mod Z.abs b) 0) as [F|F]; trivial; exfalso.
  - apply F. apply Z.mod_divide; [lia|].
    apply Z.divide_abs_l. apply Z.mod_divide; assumption.
  - apply E. apply Z.mod_divide; [assumption|].
    apply Z.divide_abs_l. apply Z.mod_divide; [lia | assumption].
Qed.

Lemma site_events_counts args uniprot_id idx site :
  requests (site_events args uniprot_id idx site) = 1 /\
  batch_pauses (site_events args uniprot_id idx site)
  = (if ((Z.of_nat idx + 1) mod bs args =? 0)%Z then 1 else 0) /\
  sleeps (site_events args uniprot_id idx site)
  = 1 + batch_pauses (site_events args uniprot_id idx site).
Proof.
  unfold site_events, requests, batch_pauses, sleeps.
  destruct ((Z.of_nat idx + 1) mod bs args =? 0)%Z; repeat split.
Qed.

Lemma loop_events_counts args uniprot_id sites : forall idx,
  bs args <> 0%Z ->
  requests (loop_events args uniprot_id idx sites) = length sites /\
  Z.of_nat (batch_pauses (loop_events args uniprot_id idx sites))
  = ((Z.of_nat idx + Z.of_nat (length sites)) / Z.abs (bs args)
     - Z.of_nat idx / Z.abs (bs args))%Z /\
  sleeps (loop_events args uniprot_id idx sites)
  = length sites + batch_pauses (loop_events args uniprot_id idx sites).
Proof.
  induction sites as [|s sites IH]; intros idx Hbs; cbn [loop_events length].
  - repeat split. rewrite Z.add_0_r. cbn. lia.
  - destruct (IH (S idx) Hbs) as (Hr & Hp & Hs).
    destruct (site_events_counts args uniprot_id idx s) as (Er & Ep & Es).
    unfold requests, batch_pauses, sleeps in *.
    rewrite !filter_app, !length_app. rewrite Er, Es, Hr, Hs. rewrite Ep.
    repeat split; [|lia].
    rewrite Nat2Z.inj_add, Hp.
    rewrite (mod_abs_zero _ _ Hbs).
    pose proof (div_succ (Z.of_nat idx) (Z.abs (bs args)) ltac:(lia)) as Hd.
    replace (Z.of_nat (S idx)) with (Z.of_nat idx + 1)%Z by lia.
    replace (Z.of_nat idx + Z.of_nat (S (length sites)))%Z
      with (Z.of_nat idx + 1 + Z.of_nat (length sites))%Z by lia.
    rewrite Hd.
    destruct ((Z.of_nat idx + 1) mod Z.abs (bs args) =? 0)%Z; lia.
Qed.

(** X10.  The pacing of a loop over [n] sites that goes through: [n]
    requests, a pause after every one of them, and one longer pause more
    after every [bs]-th site, that is [n / |bs|] of them, the last one
    after the last full batch and none after an incomplete one. *)
Theorem site_loop_pacing web args uniprot_id sites df' :
  outcome (site_loop web args uniprot_id pd.empty_frame 0 sites) = Ok df' ->
  let t := trace (site_loop web args uniprot_id pd.empty_frame 0 sites) in
  requests t = length sites /\
  Z.of_nat (batch_pauses t)
  = (Z.of_nat (length sites) / Z.abs (bs args))%Z /\
  sleeps t = length sites + batch_pauses t.
Proof.
  intros H t. subst t. rewrite (site_loop_trace_from _ _ _ _ _ _ _ H).
  destruct sites as [|s sites]; [now repeat split|].
  destruct (site_loop_table_from web args uniprot_id (s :: sites) [] []
              pd.empty_frame 0 df') as (_ & _ & _ & Hbs);
    [now left | assumption |].
  destruct (loop_events_counts args uniprot_id (s :: sites) 0
              (Hbs ltac:(discriminate))) as (Hr & Hp & Hs).
  repeat split; trivial.
  rewrite Hp. cbn [Z.of_nat]. rewrite Z.add_0_l. cbn [Z.div]. 
  rewrite Zdiv_0_l. lia.
Qed.

(** *** The theorems of the main loop on the sample site *)

(** The two sites of P00533, in batches of two. *)
Lemma site_loop_trace_witness :
  trace (site_loop web_sample pair_args "P00533" pd.empty_frame 0
           ["Y845"; "S1070"])
  = loop_events pair_args "P00533" 0 ["Y845"; "S1070"].
Proof.
  apply (site_loop_trace web_sample pair_args "P00533" ["Y845"; "S1070"]
           (records_frame "P00533" ["Y845"; "S1070"]
              [sample_array; sample_array])).
  vm_compute. reflexivity.
Defined.

(** Two sites in batches of two: one longer pause, after the second. *)
Lemma site_loop_pacing_witness :
  let t := trace (site_loop web_sample pair_args "P00533" pd.empty_frame 0
                    ["Y845"; "S1070"]) in
  requests t = length ["Y845"; "S1070"] /\
  Z.of_nat (batch_pauses t)
  = (Z.of_nat (length ["Y845"; "S1070"]) / Z.abs (bs pair_args))%Z /\
  sleeps t = length ["Y845"; "S1070"] + batch_pauses t.
Proof.
  apply (site_loop_pacing web_sample pair_args "P00533" ["Y845"; "S1070"]
           (records_frame "P00533" ["Y845"; "S1070"]
              [sample_array; sample_array])).
  vm_compute. reflexivity.
Defined.

(** Between the two sites of P00533, a site whose page is not served. *)
Lemma site_loop_failure_aborts_witness :
  outcome (site_loop web_sample pair_args "P00533" pd.empty_frame 0
             (["Y845"] ++ "T1" :: ["S1070"]))
  = Raise KeyError /\
  trace (site_loop web_sample pair_args "P00533" pd.empty_frame 0
           (["Y845"] ++ "T1" :: ["S1070"]))
  = trace (site_loop web_sample pair_args "P00533" pd.empty_frame 0 ["Y845"])
    ++ trace (site_body web_sample pair_args "P00533"
                (records_frame "P00533" ["Y845"] [sample_array])
                (0 + length ["Y845"]) "T1").
Proof.
  apply (site_loop_failure_aborts web_sample pair_args "P00533"
           pd.empty_frame 0 ["Y845"] "T1" ["S1070"]
           (records_frame "P00533" ["Y845"] [sample_array]) KeyError).
  - vm_compute. reflexivity.
  - vm_compute. reflexivity.
Defined.

(** The table of the two sites of P00533. *)
Lemma site_loop_table_witness :
  exists blocks,
    Forall2 (fun site a =>
               outcome (get_kinases web_sample "P00533" site
                          phosphonet_kinase_url)
               = Ok (NdArray a)) ["Y845"; "S1070"] blocks /\
    records_frame "P00533" ["Y845"; "S1070"] [sample_array; sample_array]
    = records_frame "P00533" ["Y845"; "S1070"] blocks /\
    length (pd.index (records_frame "P00533" ["Y845"; "S1070"]
                        [sample_array; sample_array]))
    = 50 * length ["Y845"; "S1070"].
Proof.
  apply (site_loop_table web_sample pair_args "P00533" ["Y845"; "S1070"]
           (records_frame "P00533" ["Y845"; "S1070"]
              [sample_array; sample_array])).
  - discriminate.
  - vm_compute. reflexivity.
Defined.

(** P00533 with a batch size of zero. *)
Lemma main_loop_zero_batch_witness :
  csv_files (trace (main_loop web_sample decimal_int zero_batch_args
                      ["P00533"])) = [] /\
  (["P00533"] <> [] ->
   exists e,
     outcome (main_loop web_sample decimal_int zero_batch_args ["P00533"])
     = Raise e).
Proof.
  apply (main_loop_zero_batch web_sample decimal_int zero_batch_args
           ["P00533"]).
  reflexivity.
Defined.

(** P00533 on the sample site. *)
Lemma protein_body_success_witness :
  let sites := find_all_td (web_sample (search_url "P00533")) phos_site_class in
  sites <> [] /\
  exists blocks table,
    Forall2 (fun site a =>
               outcome (get_kinases web_sample "P00533" site
                          phosphonet_kinase_url)
               = Ok (NdArray a)) sites blocks /\
    typecast_phos_df decimal_int (records_frame "P00533" sites blocks)
    = Ok table /\
    csv_files (trace (protein_body web_sample decimal_int pair_args "P00533"))
    = [(csv_path pair_args "P00533", table)] /\
    last (trace (protein_body web_sample decimal_int pair_args "P00533"))
         (HttpGet EmptyString)
    = ToCsv (csv_path pair_args "P00533") table /\
    length (pd.index table) = 50 * length sites /\
    pd.labels table
    = [LStr "substrate"; LStr "aa"; LStr "site"; LStr "kinase_rank";
       LStr "kinase_name"; LStr "kinase_id"; LStr "kinexus_score";
       LStr "kinexus_score_v2"].
Proof.
  apply (protein_body_success web_sample decimal_int pair_args "P00533").
  vm_compute. reflexivity.
Defined.
